(** * GitHub Actions Manager: the two distribution scripts

    A shallow embedding of [src/scripts/sync-workflows.ts] and
    [src/scripts/set-secrets.ts].  Both scripts are sequences of awaited
    network calls with exception-based control flow, so they are embedded
    in a small monad that threads the outside world, short-circuits on a
    thrown [Error] and records, in order, every request handed to [fetch]
    and every line printed on the console. *)

From Stdlib Require Import Ascii String DecimalString.
From stdpp Require Import base strings list gmap.

Set Default Proof Using "Type".
Set Warnings "-register-all".
Open Scope string_scope.
Open Scope list_scope.

(** ** Values thrown and results of fallible steps *)

(** A JavaScript [Error]: only its [message] is ever inspected.  Everything
    the two scripts can throw ([Error] of [githubRequest], [TypeError],
    [SyntaxError], the system errors of [fs]) is an instance of [Error], so
    the tests [error instanceof Error] of the source always succeed. *)
Record Error := mkError { message : string }.

Inductive Result (A : Type) : Type :=
| Ok (a : A)
| Throw (e : Error).
Arguments Ok {A} a.
Arguments Throw {A} e.

(** [String.prototype.includes]. *)
Fixpoint includes (needle hay : string) : bool :=
  String.prefix needle hay ||
  match hay with
  | EmptyString => false
  | String _ rest => includes needle rest
  end.

(** Interpolation [`${n}`] of a non-negative integer. *)
Definition show_N (n : N) : string := NilEmpty.string_of_uint (N.to_uint n).

(** ** JSON values, requests and responses *)

(** The JSON values of the scripts are objects whose fields are strings:
    the typed responses ([GitHubFileResponse], [PublicKeyResponse]) and all
    request bodies.  A field that is [undefined] is absent from the list,
    which is also what [JSON.stringify] makes of it. *)
Definition Json := list (string * string).

(** Property access [obj.name]; [None] is [undefined]. *)
Fixpoint prop (obj : Json) (name : string) : option string :=
  match obj with
  | [] => None
  | (k, v) :: rest => if String.eqb k name then Some v else prop rest name
  end.

(** A field [name: v] of an object literal passed to [JSON.stringify]. *)
Definition field (name : string) (v : option string) : Json :=
  match v with
  | Some s => [(name, s)]
  | None => []
  end.

Inductive Method := GET | PUT | PATCH | POST.

#[global] Instance Method_eq_dec : EqDecision Method.
Proof. solve_decision. Defined.

(** What [fetch] receives: the URL, the method and the body (kept as the
    object given to [JSON.stringify]).  The three headers are the same on
    every call and are left out. *)
Record Request := mkRequest {
  url : string;
  method : Method;
  body : option Json;
}.

#[global] Instance Request_eq_dec : EqDecision Request.
Proof. solve_decision. Defined.

(** What the scripts read of a [Response]. *)
Record Response := mkResponse {
  status : N;
  content_length : option string;   (* headers.get('content-length') *)
  content_type : option string;     (* headers.get('content-type') *)
  text : string;                    (* await response.text() *)
}.

(** [response.ok]: the status is in the range 200-299. *)
Definition ok (r : Response) : bool :=
  ((200 <=? status r) && (status r <=? 299))%N.

(** ** Console lines

    One constructor per [console.log] / [console.error] call site. *)
Inductive Line :=
| LogBanner                                   (* 'GitHub Actions Manager - ...' *)
| LogNoRepositories                           (* '設定ファイルに管理対象リポジトリが定義されていません。' *)
| LogRepository (name : string)               (* `\n📦 ${repoConfig.name}` *)
| LogVariableSet (value : string)             (* `  ✓ RUNS_ON 変数を設定しました: ...` *)
| LogVariableError (msg : string)             (* `  ✗ RUNS_ON 変数の設定エラー:` *)
| LogNoWorkflows                              (* '  ⚠ ワークフローが定義されていません' *)
| LogUpToDate (filePath : string)             (* `  ✓ ${filePath} は既に最新です` *)
| LogUpdated (filePath : string)              (* `  ✓ ${filePath} を更新しました` *)
| LogCreated (filePath : string)              (* `  ✓ ${filePath} を作成しました` *)
| LogWorkflowError (workflowName msg : string)(* `  ✗ ${workflowName}.yml のエラー:` *)
| LogSecretSet                                (* '  ✓ GEMINI_API_KEY を設定しました' *)
| LogSecretError (msg : string)               (* '  ✗ GEMINI_API_KEY の設定エラー:' *)
| LogDone                                     (* '\n✅ ... が完了しました' *)
| LogFatal (msg : string)                     (* console.error('Error:', message) *)
| LogMissingEnv (name : string).              (* 'Error: ... environment variable is not set' *)

#[global] Instance Line_eq_dec : EqDecision Line.
Proof. solve_decision. Defined.

(** An observable step of a run. *)
Inductive Event :=
| Call (r : Request)
| Print (l : Line).

#[global] Instance Event_eq_dec : EqDecision Event.
Proof. solve_decision. Defined.

(** ** Configuration and local files *)

(** [RepositoryConfig]; [None] is a key that the YAML entry does not have.
    ([set-secrets.ts] declares the same interface without [runsOn] and reads
    only [name].) *)
Record RepositoryConfig := mkRepositoryConfig {
  name : string;
  workflows : option (list string);
  branch : option string;
  runsOn : option string;
}.

Record Config := mkConfig {
  repositories : option (list RepositoryConfig);
}.

(** An entry of a directory as [fs.readdir(dir, { withFileTypes: true })]
    lists it: a file, or a directory ([isDirectory()]) together with what
    listing that directory gives in turn. *)
Inductive DirEntry :=
| EFile (entry_name : string)
| EDir (entry_name : string) (listing : Result (list DirEntry)).

(** ** The platform

    The collaborators outside the scripts: the network with the remote
    service behind it, and the library functions whose code is not part of
    the repository. *)
Record Platform := mkPlatform {
  World : Type;
  (* [await fetch(url, options)]: a response, or a rejection *)
  fetch : Request -> World -> Result Response * World;
  (* [JSON.parse(text)] of a response body *)
  JSON_parse : string -> Result Json;
  (* [Buffer.from(s).toString('base64')] *)
  Buffer_to_base64 : string -> string;
  (* [Buffer.from(s, 'base64').toString('utf8')] *)
  Buffer_from_base64 : string -> string;
  (* tweetnacl-util [decodeBase64], throws on malformed input; the
     argument is [None] when the script passes [undefined] *)
  nacl_decodeBase64 : option string -> Result (list Byte.byte);
  (* tweetnacl-util [encodeBase64] *)
  nacl_encodeBase64 : list Byte.byte -> string;
  (* [new TextEncoder().encode(s)] *)
  TextEncoder_encode : string -> list Byte.byte;
  (* tweetnacl-sealedbox-js [seal(message, publicKey)]: draws an ephemeral
     key pair from the platform's randomness, throws on a malformed key *)
  seal : list Byte.byte -> list Byte.byte -> World -> Result (list Byte.byte) * World;
  (* the directory above [__dirname]: [path.join(__dirname, '..')] *)
  projectDir : string;
  (* [await fs.readFile(path, 'utf8')] *)
  readFile : string -> Result string;
  (* [fs.readdir] of [templates/.github/commands], recursively *)
  commandsListing : Result (list DirEntry);
  (* [yaml.load(configContent) as Config] *)
  yaml_load : string -> Result Config;
}.

Existing Class Platform.

(** ** The monad of the scripts *)

Section Io.
Context {P : Platform}.

Definition Io (A : Type) : Type :=
  World P -> Result A * World P * list Event.

Definition ret {A} (a : A) : Io A := fun w => (Ok a, w, []).

Definition throw {A} (e : Error) : Io A := fun w => (Throw e, w, []).

Definition bind {A B} (m : Io A) (k : A -> Io B) : Io B := fun w =>
  match m w with
  | (Ok a, w1, t1) =>
      match k a w1 with
      | (r, w2, t2) => (r, w2, t1 ++ t2)
      end
  | (Throw e, w1, t1) => (Throw e, w1, t1)
  end.

(** [try { m } catch (error) { handler error }] *)
Definition try_catch {A} (m : Io A) (handler : Error -> Io A) : Io A := fun w =>
  match m w with
  | (Ok a, w1, t1) => (Ok a, w1, t1)
  | (Throw e, w1, t1) =>
      match handler e w1 with
      | (r, w2, t2) => (r, w2, t1 ++ t2)
      end
  end.

(** A synchronous or local step that may throw. *)
Definition lift {A} (r : Result A) : Io A := fun w => (r, w, []).

Definition console (l : Line) : Io unit := fun w => (Ok tt, w, [Print l]).

Definition do_fetch (req : Request) : Io Response := fun w =>
  let '(r, w1) := fetch P req w in (r, w1, [Call req]).

Definition do_seal (msg key : list Byte.byte) : Io (list Byte.byte) := fun w =>
  let '(r, w1) := seal P msg key w in (r, w1, []).

(** [for (const x of xs) { body x }] *)
Fixpoint for_of {A} (xs : list A) (body : A -> Io unit) : Io unit :=
  match xs with
  | [] => ret tt
  | x :: rest => bind (body x) (fun _ => for_of rest body)
  end.

Definition result_of {A} (x : Result A * World P * list Event) : Result A := x.1.1.
Definition world_of {A} (x : Result A * World P * list Event) : World P := x.1.2.
Definition trace_of {A} (x : Result A * World P * list Event) : list Event := x.2.
End Io.

Arguments Io P A : clear implicits.

Declare Scope io_scope.
Delimit Scope io_scope with io.
Notation "x <- m ;; k" := (bind m (fun x => k))
  (at level 100, m at next level, right associativity) : io_scope.
Notation "m ;;; k" := (bind m (fun _ => k))
  (at level 100, right associativity) : io_scope.

(** ** Reading a trace *)

Definition calls (t : list Event) : list Request :=
  omap (fun e => match e with Call r => Some r | Print _ => None end) t.

Definition printed (t : list Event) : list Line :=
  omap (fun e => match e with Print l => Some l | Call _ => None end) t.

(** ** Strings and paths *)

(** [s.split(sep)] for a one-character separator. *)
Fixpoint split_on (sep : ascii) (s : string) : list string :=
  match s with
  | EmptyString => [""]
  | String c rest =>
      if Ascii.eqb c sep then "" :: split_on sep rest
      else match split_on sep rest with
           | h :: t => String c h :: t
           | [] => [String c ""]
           end
  end.

(** [path.basename(p)]: the last segment of [p] that is not empty. *)
Definition basename (p : string) : string :=
  default "" (last (filter (fun seg => seg <> "") (split_on "/"%char p))).

(** The rest of [s] after the prefix [pre], when it has that prefix. *)
Fixpoint strip_prefix (pre s : string) : option string :=
  match pre, s with
  | EmptyString, _ => Some s
  | String a pre', String b s' =>
      if Ascii.eqb a b then strip_prefix pre' s' else None
  | String _ _, EmptyString => None
  end.

(** [path.relative(from, to)] for a [to] that lies below [from], which is
    the only way [main] calls it (see [getFilesRecursively_below]). *)
Definition path_relative (from to : string) : string :=
  match strip_prefix (from +:+ "/") to with
  | Some rest => rest
  | None => to
  end.

(** JavaScript truthiness of an optional string: [undefined] and [''] are
    falsy. *)
Definition truthy (v : option string) : option string :=
  match v with
  | Some s => if String.eqb s "" then None else Some s
  | None => None
  end.

(** Interpolation [`${v}`] of a value that may be [undefined]. *)
Definition interpolate (v : option string) : string :=
  match v with
  | Some s => s
  | None => "undefined"
  end.

Definition GITHUB_API : string := "https://api.github.com".

(** [for (const x of xs) { acc = step x acc }] for a step that may throw. *)
Fixpoint fold_result {A B} (step : A -> B -> Result B) (xs : list A) (acc : B)
  : Result B :=
  match xs with
  | [] => Ok acc
  | x :: rest =>
      match step x acc with
      | Ok acc' => fold_result step rest acc'
      | Throw e => Throw e
      end
  end.

(** The first lines of [main] in both scripts: the configuration file is
    read and parsed. *)
Definition loadConfig {P : Platform} : Result Config :=
  match readFile P (projectDir P +:+ "/config/repositories.yaml") with
  | Ok configContent => yaml_load P configContent
  | Throw e => Throw e
  end.

(** * sync-workflows.ts *)

Module SyncWorkflows.
Section Script.
Context {P : Platform}.
Open Scope io_scope.

(** [githubRequest(endpoint, options)], with [options] given as its
    [method] and [body]; the default [{}] is [GET] without a body. *)
Definition githubRequest (endpoint : string) (meth : Method)
    (payload : option Json) : Io P Json :=
  response <- do_fetch (mkRequest (GITHUB_API +:+ endpoint) meth payload);;
  if negb (ok response) then
    throw (mkError ("GitHub API error: " +:+ show_N (status response)
                      +:+ " " +:+ text response))
  else if (status response =? 204)%N
          || bool_decide (content_length response = Some "0") then
    ret []
  else if bool_decide (text response = "") then
    ret []
  else
    lift (JSON_parse P (text response)).

Definition encodeBase64 (content : string) : string :=
  Buffer_to_base64 P content.

(** [Buffer.from(v, 'base64').toString('utf8')]; [Buffer.from] throws a
    [TypeError] when [v] is [undefined]. *)
Definition Buffer_from_TypeError : Error :=
  mkError ("The first argument must be of type string or an instance of "
           +:+ "Buffer, ArrayBuffer, or Array or an Array-like Object. "
           +:+ "Received undefined").

Definition decodeContent (v : option string) : Result string :=
  match v with
  | Some s => Ok (Buffer_from_base64 P s)
  | None => Throw Buffer_from_TypeError
  end.

Definition contentsEndpoint (owner repo filePath : string) : string :=
  "/repos/" +:+ owner +:+ "/" +:+ repo +:+ "/contents/" +:+ filePath.

(** The body of the update [PUT] (lines 123-128). *)
Definition updateBody (filePath content : string) (sha : option string)
    (branch : string) : Json :=
  [("message", "Update workflow: " +:+ basename filePath);
   ("content", encodeBase64 content)]
  ++ field "sha" sha ++ [("branch", branch)].

(** The body of the create [PUT] (lines 137-141). *)
Definition createBody (filePath content branch : string) : Json :=
  [("message", "Add workflow: " +:+ basename filePath);
   ("content", encodeBase64 content);
   ("branch", branch)].

Definition syncFile (owner repo filePath content branch : string) : Io P unit :=
  let endpoint := contentsEndpoint owner repo filePath in
  try_catch
    (existing <- githubRequest (endpoint +:+ "?ref=" +:+ branch) GET None;;
     existingContent <- lift (decodeContent (prop existing "content"));;
     if String.eqb existingContent content then
       console (LogUpToDate filePath)
     else
       (_ <- githubRequest endpoint PUT
               (Some (updateBody filePath content (prop existing "sha") branch));;
        console (LogUpdated filePath)))
    (fun error =>
       if includes "404" (message error) then
         (_ <- githubRequest endpoint PUT
                 (Some (createBody filePath content branch));;
          console (LogCreated filePath))
       else throw error).

Definition variableBody (variableName variableValue : string) : Json :=
  [("name", variableName); ("value", variableValue)].

Definition setVariable (owner repo variableName variableValue : string)
    : Io P unit :=
  let endpoint := "/repos/" +:+ owner +:+ "/" +:+ repo
                  +:+ "/actions/variables/" +:+ variableName in
  try_catch
    (_ <- githubRequest endpoint GET None;;
     _ <- githubRequest endpoint PATCH
             (Some (variableBody variableName variableValue));;
     ret tt)
    (fun error =>
       if includes "404" (message error) then
         (_ <- githubRequest
                 ("/repos/" +:+ owner +:+ "/" +:+ repo +:+ "/actions/variables")
                 POST (Some (variableBody variableName variableValue));;
          ret tt)
       else throw error).

(** One turn of the loop of [getFilesRecursively] over the entries of
    [dir]; [fileList] is the array that all recursive calls push to. *)
Fixpoint collectEntry (dir : string) (file : DirEntry) (fileList : list string)
    : Result (list string) :=
  match file with
  | EDir entry_name sub =>
      let filePath := dir +:+ "/" +:+ entry_name in
      match sub with
      | Ok files => fold_result (collectEntry filePath) files fileList
      | Throw e => Throw e
      end
  | EFile entry_name =>
      let filePath := dir +:+ "/" +:+ entry_name in
      Ok (fileList ++ [filePath])
  end.

(** [getFilesRecursively(dir, fileList)], where [listing] is what
    [fs.readdir(dir)] gives. *)
Definition getFilesRecursively (dir : string) (listing : Result (list DirEntry))
    (fileList : list string) : Result (list string) :=
  match listing with
  | Ok files => fold_result (collectEntry dir) files fileList
  | Throw e => Throw e
  end.

Definition templatesDir : string := projectDir P +:+ "/templates".
Definition commandsDir : string := templatesDir +:+ "/.github/commands".

(** Lines 263-265: the body of the loop over the files below
    [.github/commands]. *)
Definition syncCommand (owner repo branch commandFile : string) : Io P unit :=
  let relativePath := path_relative templatesDir commandFile in
  commandContent <- lift (readFile P commandFile);;
  syncFile owner repo relativePath commandContent branch.

(** Lines 257-272: the files below [.github/commands]. *)
Definition syncCommands (owner repo branch : string) : Io P unit :=
  try_catch
    (commandFiles <- lift (getFilesRecursively commandsDir (commandsListing P) []);;
     for_of commandFiles (syncCommand owner repo branch))
    (fun error =>
       if negb (includes "ENOENT" (message error)) then throw error
       else ret tt).

(** Lines 248-277: the body of the loop over [repoConfig.workflows]. *)
Definition syncWorkflow (owner repo branch workflowName : string) : Io P unit :=
  let templatePath := templatesDir +:+ "/" +:+ workflowName +:+ ".yml" in
  try_catch
    (templateContent <- lift (readFile P templatePath);;
     let targetPath := ".github/workflows/" +:+ workflowName +:+ ".yml" in
     syncFile owner repo targetPath templateContent branch;;;
     syncCommands owner repo branch)
    (fun error => console (LogWorkflowError workflowName (message error))).

(** Lines 231-240: the [RUNS_ON] variable. *)
Definition syncRunsOn (owner repo : string) (repoConfig : RepositoryConfig)
    : Io P unit :=
  match truthy (runsOn repoConfig) with
  | Some value =>
      try_catch
        (setVariable owner repo "RUNS_ON" value;;;
         console (LogVariableSet value))
        (fun error => console (LogVariableError (message error)))
  | None => ret tt
  end.

(** Lines 225-278: the body of the loop over [config.repositories]. *)
Definition syncRepository (repoConfig : RepositoryConfig) : Io P unit :=
  let parts := split_on "/"%char (name repoConfig) in
  let owner := interpolate (parts !! 0%nat) in
  let repo := interpolate (parts !! 1%nat) in
  let branch := default "main" (truthy (branch repoConfig)) in
  console (LogRepository (name repoConfig));;;
  syncRunsOn owner repo repoConfig;;;
  match workflows repoConfig with
  | None | Some [] => console LogNoWorkflows
  | Some workflowNames => for_of workflowNames (syncWorkflow owner repo branch)
  end.

Definition main : Io P unit :=
  console LogBanner;;;
  config <- lift loadConfig;;
  match repositories config with
  | None | Some [] => console LogNoRepositories
  | Some repos =>
      for_of repos syncRepository;;;
      console LogDone
  end.

(** The module body: the check of [GITHUB_TOKEN], then
    [main().catch(...)].  The result is the exit status of the process. *)
Definition script (GITHUB_TOKEN : option string)
    : World P -> N * World P * list Event := fun w =>
  match truthy GITHUB_TOKEN with
  | None => (1%N, w, [Print (LogMissingEnv "GITHUB_TOKEN")])
  | Some _ =>
      match main w with
      | (Ok _, w1, t) => (0%N, w1, t)
      | (Throw error, w1, t) => (1%N, w1, t ++ [Print (LogFatal (message error))])
      end
  end.
End Script.
End SyncWorkflows.

(** * set-secrets.ts *)

Module SetSecrets.
Section Script.
Context {P : Platform}.
Open Scope io_scope.

(** [githubRequest(endpoint, options)] of this script: [None] is the
    [null] it returns for a response without a JSON body. *)
Definition githubRequest (endpoint : string) (meth : Method)
    (payload : option Json) : Io P (option Json) :=
  response <- do_fetch (mkRequest (GITHUB_API +:+ endpoint) meth payload);;
  if negb (ok response) then
    throw (mkError ("GitHub API error: " +:+ show_N (status response)
                      +:+ " " +:+ text response))
  else if (status response =? 204)%N
          || negb (match content_type response with
                   | Some contentType => includes "application/json" contentType
                   | None => false
                   end) then
    ret None
  else if bool_decide (text response = "") then
    ret None
  else
    parsed <- lift (JSON_parse P (text response));;
    ret (Some parsed).

(** [encryptSecret(publicKey, secretValue)] *)
Definition encryptSecret (publicKey : option string) (secretValue : string)
    : Io P string :=
  publicKeyBytes <- lift (nacl_decodeBase64 P publicKey);;
  let secretBytes := TextEncoder_encode P secretValue in
  encryptedBytes <- do_seal secretBytes publicKeyBytes;;
  ret (nacl_encodeBase64 P encryptedBytes).

Definition getPublicKey (owner repo : string) : Io P (option Json) :=
  githubRequest ("/repos/" +:+ owner +:+ "/" +:+ repo
                 +:+ "/actions/secrets/public-key") GET None.

(** Reading a property of [null] throws a [TypeError]. *)
Definition null_TypeError (property : string) : Error :=
  mkError ("Cannot read properties of null (reading '" +:+ property +:+ "')").

Definition secretBody (encryptedValue : string) (key_id : option string) : Json :=
  [("encrypted_value", encryptedValue)] ++ field "key_id" key_id.

Definition setSecret (owner repo secretName secretValue : string) : Io P unit :=
  publicKey <- getPublicKey owner repo;;
  match publicKey with
  | None => throw (null_TypeError "key")
  | Some publicKey =>
      encryptedValue <- encryptSecret (prop publicKey "key") secretValue;;
      _ <- githubRequest
             ("/repos/" +:+ owner +:+ "/" +:+ repo +:+ "/actions/secrets/"
              +:+ secretName)
             PUT (Some (secretBody encryptedValue (prop publicKey "key_id")));;
      ret tt
  end.

(** Lines 166-179: the body of the loop over [config.repositories]. *)
Definition secretRepository (GEMINI_API_KEY : string)
    (repoConfig : RepositoryConfig) : Io P unit :=
  let parts := split_on "/"%char (name repoConfig) in
  let owner := interpolate (parts !! 0%nat) in
  let repo := interpolate (parts !! 1%nat) in
  console (LogRepository (name repoConfig));;;
  try_catch
    (setSecret owner repo "GEMINI_API_KEY" GEMINI_API_KEY;;;
     console LogSecretSet)
    (fun error => console (LogSecretError (message error))).

Definition main (GEMINI_API_KEY : string) : Io P unit :=
  console LogBanner;;;
  config <- lift loadConfig;;
  match repositories config with
  | None | Some [] => console LogNoRepositories
  | Some repos =>
      for_of repos (secretRepository GEMINI_API_KEY);;;
      console LogDone
  end.

(** The module body: the checks of the two environment variables, then
    [main().catch(...)].  The result is the exit status of the process. *)
Definition script (GITHUB_TOKEN GEMINI_API_KEY : option string)
    : World P -> N * World P * list Event := fun w =>
  match truthy GITHUB_TOKEN with
  | None => (1%N, w, [Print (LogMissingEnv "GITHUB_TOKEN")])
  | Some _ =>
      match truthy GEMINI_API_KEY with
      | None => (1%N, w, [Print (LogMissingEnv "GEMINI_API_KEY")])
      | Some key =>
          match main key w with
          | (Ok _, w1, t) => (0%N, w1, t)
          | (Throw error, w1, t) =>
              (1%N, w1, t ++ [Print (LogFatal (message error))])
          end
      end
  end.
End Script.
End SetSecrets.

(** * A concrete platform

    To run the scripts on concrete inputs: Base64 as Node and tweetnacl-util
    compute it, JSON for flat objects of strings, and a remote service that
    answers as the store contract of the specification (section 6) says. *)

Module Base64.
Definition alphabet : string :=
  "ABCDEFGHIJKLMNOPQRSTUVWXYZabcdefghijklmnopqrstuvwxyz0123456789+/".

Definition digit (n : N) : ascii :=
  default "="%char (String.get (N.to_nat n) alphabet).

Definition code (c : ascii) : N := N_of_ascii c.

Fixpoint encode (s : string) : string :=
  match s with
  | EmptyString => ""
  | String a EmptyString =>
      String (digit (N.shiftr (code a) 2))
        (String (digit (N.shiftl (N.land (code a) 3) 4)) "==")
  | String a (String b EmptyString) =>
      String (digit (N.shiftr (code a) 2))
        (String (digit (N.lor (N.shiftl (N.land (code a) 3) 4) (N.shiftr (code b) 4)))
           (String (digit (N.shiftl (N.land (code b) 15) 2)) "="))
  | String a (String b (String c rest)) =>
      String (digit (N.shiftr (code a) 2))
        (String (digit (N.lor (N.shiftl (N.land (code a) 3) 4) (N.shiftr (code b) 4)))
           (String (digit (N.lor (N.shiftl (N.land (code b) 15) 2) (N.shiftr (code c) 6)))
              (String (digit (N.land (code c) 63)) (encode rest))))
  end.

(** The value of a Base64 digit. *)
Fixpoint index_in (c : ascii) (digits : string) (i : N) : option N :=
  match digits with
  | EmptyString => None
  | String d rest => if Ascii.eqb c d then Some i else index_in c rest (N.succ i)
  end.

(** The digits of the input up to the padding; other characters are
    skipped, as [Buffer.from(s, 'base64')] does. *)
Fixpoint sextets (s : string) : list N :=
  match s with
  | EmptyString => []
  | String c rest =>
      if Ascii.eqb c "="%char then []
      else match index_in c alphabet 0 with
           | Some v => v :: sextets rest
           | None => sextets rest
           end
  end.

Definition byte (n : N) : ascii := ascii_of_N (N.land n 255).

Fixpoint bytes (vs : list N) : string :=
  match vs with
  | p :: q :: r :: s :: rest =>
      String (byte (N.lor (N.shiftl p 2) (N.shiftr q 4)))
        (String (byte (N.lor (N.shiftl q 4) (N.shiftr r 2)))
           (String (byte (N.lor (N.shiftl r 6) s)) (bytes rest)))
  | [p; q; r] =>
      String (byte (N.lor (N.shiftl p 2) (N.shiftr q 4)))
        (String (byte (N.lor (N.shiftl q 4) (N.shiftr r 2))) "")
  | [p; q] => String (byte (N.lor (N.shiftl p 2) (N.shiftr q 4))) ""
  | _ => ""
  end.

Definition decode (s : string) : string := bytes (sextets s).
End Base64.

Module FlatJson.
Definition dquote : ascii := ascii_of_N 34.

Definition quote (s : string) : string :=
  String dquote (s +:+ String dquote "").

(** [JSON.stringify] of an object of strings that need no escaping. *)
Fixpoint members (obj : Json) : string :=
  match obj with
  | [] => ""
  | [(k, v)] => quote k +:+ ":" +:+ quote v
  | (k, v) :: rest => quote k +:+ ":" +:+ quote v +:+ "," +:+ members rest
  end.

Definition stringify (obj : Json) : string := "{" +:+ members obj +:+ "}".

(** The characters up to the next double quote, and what follows it. *)
Fixpoint quoted (s : string) : option (string * string) :=
  match s with
  | EmptyString => None
  | String c rest =>
      if Ascii.eqb c dquote then Some ("", rest)
      else match quoted rest with
           | Some (q, after) => Some (String c q, after)
           | None => None
           end
  end.

Definition SyntaxError : Error := mkError "Unexpected token in JSON".

(** The members that follow an opening brace or a comma. *)
Fixpoint parse_members (fuel : nat) (s : string) : Result Json :=
  match fuel, s with
  | S fuel', String q rest =>
      if Ascii.eqb q dquote then
        match quoted rest with
        | Some (k, String colon (String q' rest')) =>
            if Ascii.eqb colon ":"%char && Ascii.eqb q' dquote then
              match quoted rest' with
              | Some (v, "}") => Ok [(k, v)]
              | Some (v, String comma rest'') =>
                  if Ascii.eqb comma ","%char then
                    match parse_members fuel' rest'' with
                    | Ok more => Ok ((k, v) :: more)
                    | Throw e => Throw e
                    end
                  else Throw SyntaxError
              | _ => Throw SyntaxError
              end
            else Throw SyntaxError
        | _ => Throw SyntaxError
        end
      else Throw SyntaxError
  | _, _ => Throw SyntaxError
  end.

Definition parse (s : string) : Result Json :=
  match s with
  | "{}" => Ok []
  | String brace rest =>
      if Ascii.eqb brace "{"%char then parse_members (String.length rest) rest
      else Throw SyntaxError
  | EmptyString => Throw SyntaxError
  end.
End FlatJson.

Module Remote.
(** The state of the remote service: what a [GET] of a URL answers, the
    requests it fails on (keyed by method and URL), and a counter from
    which fresh version tokens are made. *)
Record State := mkState {
  resources : gmap string Json;
  faults : gmap string Response;
  revision : N;
}.

Definition method_name (m : Method) : string :=
  match m with GET => "GET" | PUT => "PUT" | PATCH => "PATCH" | POST => "POST" end.

Definition fault_key (m : Method) (u : string) : string :=
  method_name m +:+ " " +:+ u.

Definition json_response (code : N) (obj : Json) : Response :=
  let payload := FlatJson.stringify obj in
  mkResponse code (Some (show_N (N.of_nat (String.length payload))))
    (Some "application/json; charset=utf-8") payload.

Definition no_content : Response := mkResponse 204 None None "".

Definition failure (code : N) (reason : string) : Response :=
  json_response code [("message", reason); ("status", show_N code)].

Definition store (key : string) (obj : Json) (st : State) : State :=
  mkState (<[key := obj]> (resources st)) (faults st) (N.succ (revision st)).

(** [PUT] of a file: a create when the body has no version token, an
    update when it has the current one. *)
Definition put_content (u content : string) (payload : Json) (st : State)
    : Response * State :=
  let key := u +:+ "?ref=" +:+ interpolate (prop payload "branch") in
  let fresh := "v" +:+ show_N (N.succ (revision st)) in
  let stored := [("content", content); ("sha", fresh)] in
  match resources st !! key, prop payload "sha" with
  | None, None => (json_response 201 stored, store key stored st)
  | Some current, Some sha =>
      if bool_decide (prop current "sha" = Some sha)
      then (json_response 200 stored, store key stored st)
      else (failure 409 "Conflict", st)
  | Some _, None => (failure 422 "Invalid request: sha was not supplied", st)
  | None, Some _ => (failure 409 "Conflict", st)
  end.

Definition serve (req : Request) (st : State) : Result Response * State :=
  match faults st !! fault_key (method req) (url req) with
  | Some resp => (Ok resp, st)
  | None =>
      match method req, body req with
      | GET, _ =>
          match resources st !! url req with
          | Some obj => (Ok (json_response 200 obj), st)
          | None => (Ok (failure 404 "Not Found"), st)
          end
      | PUT, Some payload =>
          match prop payload "content" with
          | Some content =>
              let '(resp, st') := put_content (url req) content payload st in
              (Ok resp, st')
          | None =>
              (* any other resource is upserted, as a secret is *)
              match resources st !! url req with
              | Some _ => (Ok no_content, store (url req) payload st)
              | None => (Ok (json_response 201 []), store (url req) payload st)
              end
          end
      | PATCH, Some payload =>
          match resources st !! url req with
          | Some _ => (Ok no_content, store (url req) payload st)
          | None => (Ok (failure 404 "Not Found"), st)
          end
      | POST, Some payload =>
          let key := url req +:+ "/" +:+ interpolate (prop payload "name") in
          match resources st !! key with
          | Some _ => (Ok (failure 409 "Already exists"), st)
          | None => (Ok (json_response 201 []), store key payload st)
          end
      | _, None => (Ok (failure 400 "Problems parsing JSON"), st)
      end
  end.

Definition ENOENT (path : string) : Error :=
  mkError ("ENOENT: no such file or directory, open '" +:+ path +:+ "'").

(** A stand-in for the sealed box: the key followed by the message. *)
Definition seal_stub (msg key : list Byte.byte) (st : State)
    : Result (list Byte.byte) * State :=
  match key with
  | [] => (Throw (mkError "bad public key size"), st)
  | _ => (Ok (key ++ msg), st)
  end.

(** The platform whose configuration file parses to [config], whose
    local files are [localFiles] and whose [templates/.github/commands]
    lists as [commands]. *)
Definition platform (config : Result Config) (localFiles : gmap string string)
    (commands : Result (list DirEntry)) : Platform :=
  {| World := State;
     fetch := serve;
     JSON_parse := FlatJson.parse;
     Buffer_to_base64 := Base64.encode;
     Buffer_from_base64 := Base64.decode;
     nacl_decodeBase64 := fun v =>
       match v with
       | Some s => Ok (list_byte_of_string (Base64.decode s))
       | None => Throw (mkError "invalid encoding")
       end;
     nacl_encodeBase64 := fun bs => Base64.encode (string_of_list_byte bs);
     TextEncoder_encode := list_byte_of_string;
     seal := seal_stub;
     projectDir := "/app";
     readFile := fun path =>
       match localFiles !! path with
       | Some content => Ok content
       | None => Throw (ENOENT path)
       end;
     commandsListing := commands;
     yaml_load := fun _ => config |}.
End Remote.

(** * What a run shows *)

(** The outcome tags of the specification. *)
Inductive Outcome :=
| unchanged
| created
| updated
| failed (reason : string).

(** The outcome of a run of [syncFile]: the message of what it threw, or
    else the tag of the line it printed last. *)
Definition outcome {P : Platform} (x : Result unit * World P * list Event)
    : option Outcome :=
  match result_of x with
  | Throw e => Some (failed (message e))
  | Ok _ =>
      match last (printed (trace_of x)) with
      | Some (LogUpToDate _) => Some unchanged
      | Some (LogUpdated _) => Some updated
      | Some (LogCreated _) => Some created
      | _ => None
      end
  end.

(** The version token a request carries. *)
Definition version_token (r : Request) : option string :=
  match body r with
  | Some payload => prop payload "sha"
  | None => None
  end.

(** The writes of [sync-workflows.ts] to files are its [PUT] requests: an
    update carries a version token, a create carries none. *)
Definition is_write (r : Request) : bool := bool_decide (method r = PUT).
Definition is_update (r : Request) : bool :=
  is_write r && bool_decide (version_token r <> None).
Definition is_create (r : Request) : bool :=
  is_write r && bool_decide (version_token r = None).

Definition writes (t : list Event) : list Request := filter is_write (calls t).
Definition updates (t : list Event) : list Request := filter is_update (calls t).
Definition creates (t : list Event) : list Request := filter is_create (calls t).

(** The requests of [syncFile]. *)
Section Requests.
Context {P : Platform}.

Definition readRequest (owner repo filePath branch : string) : Request :=
  mkRequest (GITHUB_API +:+ SyncWorkflows.contentsEndpoint owner repo filePath
             +:+ "?ref=" +:+ branch) GET None.

Definition updateRequest (owner repo filePath content : string)
    (sha : option string) (branch : string) : Request :=
  mkRequest (GITHUB_API +:+ SyncWorkflows.contentsEndpoint owner repo filePath) PUT
    (Some (SyncWorkflows.updateBody filePath content sha branch)).

Definition createRequest (owner repo filePath content branch : string) : Request :=
  mkRequest (GITHUB_API +:+ SyncWorkflows.contentsEndpoint owner repo filePath) PUT
    (Some (SyncWorkflows.createBody filePath content branch)).

(** [await githubRequest(endpoint + `?ref=${branch}`)], the read of
    [syncFile]. *)
Definition readFileState (owner repo filePath branch : string) : Io P Json :=
  SyncWorkflows.githubRequest
    (SyncWorkflows.contentsEndpoint owner repo filePath +:+ "?ref=" +:+ branch)
    GET None.

(** The requests of [setVariable]. *)
Definition variableUrl (owner repo variableName : string) : string :=
  GITHUB_API +:+ "/repos/" +:+ owner +:+ "/" +:+ repo
  +:+ "/actions/variables/" +:+ variableName.

Definition variableRead (owner repo variableName : string) : Request :=
  mkRequest (variableUrl owner repo variableName) GET None.

Definition variableUpdate (owner repo variableName value : string) : Request :=
  mkRequest (variableUrl owner repo variableName) PATCH
    (Some (SyncWorkflows.variableBody variableName value)).

Definition variableCreate (owner repo variableName value : string) : Request :=
  mkRequest (GITHUB_API +:+ "/repos/" +:+ owner +:+ "/" +:+ repo
             +:+ "/actions/variables") POST
    (Some (SyncWorkflows.variableBody variableName value)).

(** What [main] computes from an entry of the configuration (lines 226-227)
    and from a workflow name (lines 249, 253). *)
Definition repoOwner (repoConfig : RepositoryConfig) : string :=
  interpolate (split_on "/"%char (name repoConfig) !! 0%nat).
Definition repoName (repoConfig : RepositoryConfig) : string :=
  interpolate (split_on "/"%char (name repoConfig) !! 1%nat).
Definition repoBranch (repoConfig : RepositoryConfig) : string :=
  default "main" (truthy (branch repoConfig)).
(** The workflows of an entry; an entry without the key has none (for it and
    for an empty list line 242 prints a notice and goes on). *)
Definition declaredWorkflows (repoConfig : RepositoryConfig) : list string :=
  default [] (workflows repoConfig).
Definition templatePath (workflowName : string) : string :=
  SyncWorkflows.templatesDir +:+ "/" +:+ workflowName +:+ ".yml".
Definition targetPath (workflowName : string) : string :=
  ".github/workflows/" +:+ workflowName +:+ ".yml".

(** A request for a file of the repository, and a request for its variables. *)
Definition file_event (owner repo : string) (ev : Event) : Prop :=
  match ev with
  | Call r => exists path, url r = GITHUB_API +:+ SyncWorkflows.contentsEndpoint owner repo path
  | Print _ => True
  end.

Definition variable_event (owner repo : string) (ev : Event) : Prop :=
  match ev with
  | Call r => exists rest, url r = GITHUB_API +:+ "/repos/" +:+ owner +:+ "/" +:+ repo
                                   +:+ "/actions/variables" +:+ rest
  | Print _ => True
  end.

(** The lines that report on a file. *)
Definition is_file_line (l : Line) : bool :=
  match l with
  | LogUpToDate _ | LogUpdated _ | LogCreated _ | LogWorkflowError _ _ => true
  | _ => false
  end.

Definition file_lines (t : list Event) : list Line := filter is_file_line (printed t).

(** ** The desired state

    The file artifacts a run is to reconcile, as pairs of a remote path and
    the desired content, read off the local files the way [main] reads them. *)

(** The auxiliary files: every file below [templates/.github/commands] under
    its path relative to [templates]; none when that directory does not exist.
    [None] when a local file cannot be read. *)
Definition desiredCommands : option (list (string * string)) :=
  match SyncWorkflows.getFilesRecursively SyncWorkflows.commandsDir (commandsListing P) [] with
  | Ok commandFiles =>
      mapM (fun commandFile =>
              match readFile P commandFile with
              | Ok commandContent =>
                  Some (path_relative SyncWorkflows.templatesDir commandFile, commandContent)
              | Throw _ => None
              end) commandFiles
  | Throw e => if includes "ENOENT" (message e) then Some [] else None
  end.

(** The artifacts of a workflow: its template file, then the auxiliary files. *)
Definition desiredWorkflow (commands : list (string * string)) (workflowName : string)
    : list (string * string) :=
  match readFile P (templatePath workflowName) with
  | Ok templateContent => (targetPath workflowName, templateContent) :: commands
  | Throw _ => []
  end.

Definition desiredFiles (commands : list (string * string))
    (repoConfig : RepositoryConfig) : list (string * string) :=
  flat_map (desiredWorkflow commands) (declaredWorkflows repoConfig).

(** The remote state is converged on an artifact, and stays so, in the worlds
    of [inv]: reading the path returns content that decodes to the desired
    content, and leaves a world of [inv]. *)
Definition Converged (inv : World P -> Prop) (repoConfig : RepositoryConfig)
    (artifact : string * string) : Prop :=
  forall w, inv w ->
    exists existing w1 t1,
      readFileState (repoOwner repoConfig) (repoName repoConfig) artifact.1
        (repoBranch repoConfig) w = (Ok existing, w1, t1)
      /\ SyncWorkflows.decodeContent (prop existing "content") = Ok artifact.2
      /\ inv w1.

(** A run that left everything as it was: it returned, in a world of [inv],
    wrote no file, and reported each of [artifacts], in order, as up to date
    and nothing else about files. *)
Definition Settled (inv : World P -> Prop) (x : Result unit * World P * list Event)
    (artifacts : list (string * string)) : Prop :=
  result_of x = Ok tt
  /\ inv (world_of x)
  /\ writes (trace_of x) = []
  /\ file_lines (trace_of x) = map (fun a => LogUpToDate a.1) artifacts.

Definition declaredRepositories (config : Config) : list RepositoryConfig :=
  default [] (repositories config).

(** An event that is neither a write of a file nor a report on one. *)
Definition quiet_event (ev : Event) : Prop :=
  match ev with
  | Call r => method r <> PUT
  | Print l => is_file_line l = false
  end.

(** The update calls ([PATCH]) and create calls ([POST]) of [setVariable]. *)
Definition variable_updates (t : list Event) : list Request :=
  filter (fun r => method r = PATCH) (calls t).
Definition variable_creates (t : list Event) : list Request :=
  filter (fun r => method r = POST) (calls t).

(** What the [catch] of [syncFile] does with an error whose message shows
    404: the create write, and the line of a created file when the write
    returns. *)
Definition createRun (owner repo filePath content branch : string)
    (w : World P) : Result unit * World P * list Event :=
  match SyncWorkflows.githubRequest (SyncWorkflows.contentsEndpoint owner repo filePath) PUT
          (Some (SyncWorkflows.createBody filePath content branch)) w with
  | (Ok _, w', _) =>
      (Ok tt, w', [Call (createRequest owner repo filePath content branch);
                   Print (LogCreated filePath)])
  | (Throw e, w', _) =>
      (Throw e, w', [Call (createRequest owner repo filePath content branch)])
  end.

(** [await githubRequest(endpoint)], the read of [setVariable]. *)
Definition readVariable (owner repo variableName : string) : Io P Json :=
  SyncWorkflows.githubRequest ("/repos/" +:+ owner +:+ "/" +:+ repo +:+ "/actions/variables/"
                 +:+ variableName) GET None.

Definition patchVariable (owner repo variableName value : string) : Io P Json :=
  SyncWorkflows.githubRequest ("/repos/" +:+ owner +:+ "/" +:+ repo +:+ "/actions/variables/"
                 +:+ variableName) PATCH (Some (SyncWorkflows.variableBody variableName value)).

Definition postVariable (owner repo variableName value : string) : Io P Json :=
  SyncWorkflows.githubRequest ("/repos/" +:+ owner +:+ "/" +:+ repo +:+ "/actions/variables")
    POST (Some (SyncWorkflows.variableBody variableName value)).

(** The requests of [setSecret]. *)
Definition publicKeyRequest (owner repo : string) : Request :=
  mkRequest (GITHUB_API +:+ "/repos/" +:+ owner +:+ "/" +:+ repo
             +:+ "/actions/secrets/public-key") GET None.

Definition secretUrl (owner repo secretName : string) : string :=
  GITHUB_API +:+ "/repos/" +:+ owner +:+ "/" +:+ repo +:+ "/actions/secrets/"
  +:+ secretName.

Definition secretWrite (owner repo secretName encryptedValue : string)
    (key_id : option string) : Request :=
  mkRequest (secretUrl owner repo secretName) PUT
    (Some (SetSecrets.secretBody encryptedValue key_id)).

(** ** Directory trees *)

(** Every directory of the tree can be listed. *)
Fixpoint listable (file : DirEntry) : bool :=
  match file with
  | EFile _ => true
  | EDir _ (Ok entries) => forallb listable entries
  | EDir _ (Throw _) => false
  end.

(** The paths of the files of a tree below [dir], directory by directory in
    the order of the listings. *)
Fixpoint filesBelow (dir : string) (file : DirEntry) : list string :=
  match file with
  | EFile entry_name => [dir +:+ "/" +:+ entry_name]
  | EDir entry_name (Ok entries) =>
      flat_map (filesBelow (dir +:+ "/" +:+ entry_name)) entries
  | EDir _ (Throw _) => []
  end.


(** A request for a file below [.github/commands] of the repository. *)
Definition command_event (owner repo : string) (ev : Event) : Prop :=
  match ev with
  | Call r => exists rest,
      url r = GITHUB_API +:+ SyncWorkflows.contentsEndpoint owner repo
                               (".github/commands/" +:+ rest)
  | Print _ => True
  end.

(** A request that [main] of [sync-workflows.ts] may issue for an entry of
    the configuration. *)
Definition repository_event (repoConfig : RepositoryConfig) (ev : Event) : Prop :=
  file_event (repoOwner repoConfig) (repoName repoConfig) ev
  \/ variable_event (repoOwner repoConfig) (repoName repoConfig) ev.

(** The string has no slash. *)
Definition slash_free (s : string) : bool :=
  forallb (fun c => negb (Ascii.eqb c "/"%char)) (list_ascii_of_string s).
End Requests.

(** * Scenarios

    The repository [acme/widgets] of the specification, with the workflow
    [ci] whose template reads [A] and two auxiliary files, run against the
    remote service in several states. *)

Module Scenario.
Definition widgets : RepositoryConfig :=
  mkRepositoryConfig "acme/widgets" (Some ["ci"]) None None.

Definition widgetsOnRunner : RepositoryConfig :=
  mkRepositoryConfig "acme/widgets" (Some ["ci"]) None (Some "self-hosted").

Definition localFiles : gmap string string :=
  {[ "/app/config/repositories.yaml" := "repositories: [{name: acme/widgets, workflows: [ci]}]";
     "/app/templates/ci.yml" := "A";
     "/app/templates/.github/commands/review.toml" := "R";
     "/app/templates/.github/commands/triage/labels.toml" := "L" ]}.

Definition commands : Result (list DirEntry) :=
  Ok [EFile "review.toml"; EDir "triage" (Ok [EFile "labels.toml"])].

(** The checkout with the auxiliary files, and one without that directory. *)
Definition acme : Platform :=
  Remote.platform (Ok (mkConfig (Some [widgets]))) localFiles commands.

Definition plain : Platform :=
  Remote.platform (Ok (mkConfig (Some [widgets]))) localFiles
    (Throw (mkError "ENOENT: no such file or directory, scandir '/app/templates/.github/commands'")).


Definition contentsUrl (filePath : string) : string :=
  GITHUB_API +:+ "/repos/acme/widgets/contents/" +:+ filePath.

Definition ci : string := ".github/workflows/ci.yml".
Definition review : string := ".github/commands/review.toml".
Definition labels : string := ".github/commands/triage/labels.toml".

Definition remoteFile (filePath content sha : string) : string * Json :=
  (contentsUrl filePath +:+ "?ref=main",
   [("content", Base64.encode content); ("sha", sha)]).

(** The file [ci.yml] is absent; present with content [A] and version [v1];
    present with content [B] and version [v2]. *)
Definition absent : Remote.State := Remote.mkState ∅ ∅ 0.
Definition same : Remote.State :=
  Remote.mkState (list_to_map [remoteFile ci "A" "v1"]) ∅ 1.
Definition differs : Remote.State :=
  Remote.mkState (list_to_map [remoteFile ci "B" "v2"]) ∅ 2.

(** As [differs], and the service answers the update write with a conflict. *)
Definition conflict : Remote.State :=
  Remote.mkState (list_to_map [remoteFile ci "B" "v2"])
    {[ Remote.fault_key PUT (contentsUrl ci) := Remote.failure 409 "Conflict" ]} 2.

(** All three artifacts are as desired. *)
Definition converged : Remote.State :=
  Remote.mkState
    (list_to_map [remoteFile ci "A" "v1"; remoteFile review "R" "v2";
                  remoteFile labels "L" "v3"]) ∅ 3.


(** As [converged], and the service fails on the read of the variable. *)
Definition variableReadFails : Remote.State :=
  Remote.mkState
    (list_to_map [remoteFile ci "A" "v1"; remoteFile review "R" "v2";
                  remoteFile labels "L" "v3"])
    {[ Remote.fault_key GET
         (GITHUB_API +:+ "/repos/acme/widgets/actions/variables/RUNS_ON")
       := Remote.failure 500 "Server Error" ]} 3.

Definition runsOnUrl : string :=
  GITHUB_API +:+ "/repos/acme/widgets/actions/variables/RUNS_ON".

(** The variable [RUNS_ON] exists. *)
Definition variablePresent : Remote.State :=
  Remote.mkState {[ runsOnUrl := [("name", "RUNS_ON"); ("value", "ubuntu-latest")] ]} ∅ 1.

(** The variable exists when read and is gone when updated. *)
Definition variableVanishes : Remote.State :=
  Remote.mkState {[ runsOnUrl := [("name", "RUNS_ON"); ("value", "ubuntu-latest")] ]}
    {[ Remote.fault_key PATCH runsOnUrl := Remote.failure 404 "Not Found" ]} 1.

(** A gateway error whose text names a 404 of its upstream. *)
Definition badGateway : Response :=
  Remote.failure 502 "upstream answered 404".

Definition gatewayOn (m : Method) (u : string) (st : Remote.State) : Remote.State :=
  Remote.mkState (Remote.resources st) (<[Remote.fault_key m u := badGateway]> (Remote.faults st))
    (Remote.revision st).

(** The public key of the repository, and a secret already set. *)
Definition publicKey : Json := [("key_id", "568250167242549743"); ("key", Base64.encode "0123456789abcdef0123456789abcdef")].

(** As [converged], and the read of the second artifact is answered with an
    error whose text shows ENOENT. *)
Definition secondReadShowsENOENT : Remote.State :=
  Remote.mkState
    (list_to_map [remoteFile ci "A" "v1"; remoteFile review "R" "v2";
                  remoteFile labels "L" "v3"])
    {[ Remote.fault_key GET (contentsUrl review +:+ "?ref=main")
       := Remote.failure 500 "ENOENT: cache entry missing" ]} 3.

(** The read of [ci.yml] is answered with status 204. *)
Definition readWithoutBody : Remote.State :=
  Remote.mkState ∅
    {[ Remote.fault_key GET (contentsUrl ci +:+ "?ref=main") := Remote.no_content ]} 0.

(** The fetch of the public key is answered with a page of HTML. *)
Definition keyAsHtml : Remote.State :=
  Remote.mkState ∅
    {[ Remote.fault_key GET
         (GITHUB_API +:+ "/repos/acme/widgets/actions/secrets/public-key")
       := mkResponse 200 (Some "13") (Some "text/html") "<html></html>" ]} 0.

(** A second repository, and the configuration with both. *)
Definition gadgets : RepositoryConfig :=
  mkRepositoryConfig "acme/gadgets" None (Some "develop") None.

Definition both : Platform :=
  Remote.platform (Ok (mkConfig (Some [widgets; gadgets]))) localFiles commands.
End Scenario.

(** * Properties of sync-workflows.ts *)

Section SyncFacts.
Context {P : Platform}.
Import SyncWorkflows.

Lemma includes_prefix needle hay :
  String.prefix needle hay = true -> includes needle hay = true.
Proof. destruct hay; simpl; intros ->; reflexivity. Qed.

Lemma includes_cons needle c hay :
  includes needle hay = true -> includes needle (String c hay) = true.
Proof. simpl. intros ->. apply orb_true_r. Qed.

Lemma includes_app_r needle pre hay :
  includes needle hay = true -> includes needle (pre +:+ hay) = true.
Proof.
  intros H. induction pre as [|c pre IH]; [exact H|].
  apply includes_cons, IH.
Qed.

(** The message of a failed request shows everything the response body
    shows. *)
Lemma error_message_includes needle code payload :
  includes needle payload = true ->
  includes needle ("GitHub API error: " +:+ show_N code +:+ " " +:+ payload) = true.
Proof.
  intros H. apply includes_app_r.
  apply (includes_app_r needle (show_N code) (" " +:+ payload)).
  apply (includes_app_r needle " " payload), H.
Qed.

Lemma error_message_404 payload :
  includes "404" ("GitHub API error: " +:+ show_N 404 +:+ " " +:+ payload) = true.
Proof. reflexivity. Qed.

(** A request is one call of [fetch], whatever comes of it. *)
Lemma githubRequest_trace endpoint meth payload (w : World P) :
  trace_of (githubRequest endpoint meth payload w)
  = [Call (mkRequest (GITHUB_API +:+ endpoint) meth payload)].
Proof.
  unfold githubRequest, bind, do_fetch, trace_of.
  destruct (fetch P _ w) as [[response|e] w1]; simpl; [|reflexivity].
  destruct (negb (ok response)); simpl; [reflexivity|].
  destruct (_ || _); simpl; [reflexivity|].
  destruct (bool_decide _); simpl; [reflexivity|].
  unfold lift. reflexivity.
Qed.

Lemma githubRequest_world endpoint meth payload (w : World P) :
  world_of (githubRequest endpoint meth payload w)
  = (fetch P (mkRequest (GITHUB_API +:+ endpoint) meth payload) w).2.
Proof.
  unfold githubRequest, bind, do_fetch, world_of.
  destruct (fetch P _ w) as [[response|e] w1]; simpl; [|reflexivity].
  destruct (negb (ok response)); simpl; [reflexivity|].
  destruct (_ || _); simpl; [reflexivity|].
  destruct (bool_decide _); simpl; [reflexivity|].
  unfold lift. reflexivity.
Qed.

Lemma githubRequest_eq endpoint meth payload (w : World P) r w1 t :
  githubRequest endpoint meth payload w = (r, w1, t) ->
  t = [Call (mkRequest (GITHUB_API +:+ endpoint) meth payload)].
Proof.
  intros H. rewrite <- (githubRequest_trace endpoint meth payload w), H.
  reflexivity.
Qed.

(** A response outside 200-299 is thrown with its status and body. *)
Lemma githubRequest_not_ok endpoint meth payload (w w1 : World P) response :
  fetch P (mkRequest (GITHUB_API +:+ endpoint) meth payload) w = (Ok response, w1) ->
  ok response = false ->
  githubRequest endpoint meth payload w
  = (Throw (mkError ("GitHub API error: " +:+ show_N (status response)
                       +:+ " " +:+ text response)),
     w1, [Call (mkRequest (GITHUB_API +:+ endpoint) meth payload)]).
Proof.
  intros Hf Hok. unfold githubRequest, bind, do_fetch.
  rewrite Hf, Hok. reflexivity.
Qed.

Lemma Buffer_from_TypeError_no_404 :
  includes "404" (message Buffer_from_TypeError) = false.
Proof. reflexivity. Qed.

Lemma prop_updateBody_sha filePath content sha branch :
  prop (updateBody filePath content sha branch) "sha" = sha.
Proof. destruct sha; reflexivity. Qed.

Lemma prop_createBody_sha filePath content branch :
  prop (createBody filePath content branch) "sha" = None.
Proof. reflexivity. Qed.

(** ** The runs of [syncFile], by what its read and its writes return *)

Lemma syncFile_up_to_date owner repo filePath content branch
    (w w1 : World P) existing t1 :
  readFileState owner repo filePath branch w = (Ok existing, w1, t1) ->
  decodeContent (prop existing "content") = Ok content ->
  syncFile owner repo filePath content branch w
  = (Ok tt, w1, [Call (readRequest owner repo filePath branch);
                 Print (LogUpToDate filePath)]).
Proof.
  intros Hread Hdec. pose proof (githubRequest_eq _ _ _ _ _ _ _ Hread) as ->.
  unfold readFileState in Hread.
  unfold syncFile, try_catch, bind. rewrite Hread.
  unfold lift at 1. rewrite Hdec, String.eqb_refl. reflexivity.
Qed.

Lemma createRun_eq owner repo filePath content branch (w : World P) :
  bind (githubRequest (contentsEndpoint owner repo filePath) PUT
          (Some (createBody filePath content branch)))
       (fun _ => console (LogCreated filePath)) w
  = createRun owner repo filePath content branch w.
Proof.
  unfold bind, createRun.
  destruct (githubRequest _ PUT _ w) as [[[j|e] w'] t] eqn:Hc;
    rewrite (githubRequest_eq _ _ _ _ _ _ _ Hc); reflexivity.
Qed.

Lemma syncFile_updated owner repo filePath content branch
    (w w1 w2 : World P) existing remote t1 j t2 :
  readFileState owner repo filePath branch w = (Ok existing, w1, t1) ->
  decodeContent (prop existing "content") = Ok remote ->
  remote <> content ->
  githubRequest (contentsEndpoint owner repo filePath) PUT
    (Some (updateBody filePath content (prop existing "sha") branch)) w1
  = (Ok j, w2, t2) ->
  syncFile owner repo filePath content branch w
  = (Ok tt, w2,
     [Call (readRequest owner repo filePath branch);
      Call (updateRequest owner repo filePath content (prop existing "sha") branch);
      Print (LogUpdated filePath)]).
Proof.
  intros Hread Hdec Hne Hput.
  pose proof (githubRequest_eq _ _ _ _ _ _ _ Hread) as ->.
  pose proof (githubRequest_eq _ _ _ _ _ _ _ Hput) as ->.
  unfold readFileState in Hread.
  unfold syncFile, try_catch, bind. rewrite Hread.
  unfold lift at 1. rewrite Hdec.
  apply String.eqb_neq in Hne. rewrite Hne, Hput. reflexivity.
Qed.

Lemma syncFile_update_thrown owner repo filePath content branch
    (w w1 w2 : World P) existing remote t1 e t2 :
  readFileState owner repo filePath branch w = (Ok existing, w1, t1) ->
  decodeContent (prop existing "content") = Ok remote ->
  remote <> content ->
  githubRequest (contentsEndpoint owner repo filePath) PUT
    (Some (updateBody filePath content (prop existing "sha") branch)) w1
  = (Throw e, w2, t2) ->
  syncFile owner repo filePath content branch w
  = if includes "404" (message e) then
      let x := createRun owner repo filePath content branch w2 in
      (result_of x, world_of x,
       [Call (readRequest owner repo filePath branch);
        Call (updateRequest owner repo filePath content (prop existing "sha") branch)]
       ++ trace_of x)
    else
      (Throw e, w2,
       [Call (readRequest owner repo filePath branch);
        Call (updateRequest owner repo filePath content (prop existing "sha") branch)]).
Proof.
  intros Hread Hdec Hne Hput.
  pose proof (githubRequest_eq _ _ _ _ _ _ _ Hread) as ->.
  pose proof (githubRequest_eq _ _ _ _ _ _ _ Hput) as ->.
  unfold readFileState in Hread.
  unfold syncFile, try_catch. unfold bind at 1. rewrite Hread.
  unfold bind at 1. unfold lift at 1. rewrite Hdec.
  apply String.eqb_neq in Hne. rewrite Hne.
  unfold bind at 1. rewrite Hput.
  destruct (includes "404" (message e)); [|reflexivity].
  rewrite createRun_eq.
  destruct (createRun _ _ _ _ _ w2) as [[r3 w3] t3]. reflexivity.
Qed.

Lemma syncFile_no_content owner repo filePath content branch
    (w w1 : World P) existing t1 :
  readFileState owner repo filePath branch w = (Ok existing, w1, t1) ->
  prop existing "content" = None ->
  syncFile owner repo filePath content branch w
  = (Throw Buffer_from_TypeError, w1,
     [Call (readRequest owner repo filePath branch)]).
Proof.
  intros Hread Hnone.
  pose proof (githubRequest_eq _ _ _ _ _ _ _ Hread) as ->.
  unfold readFileState in Hread.
  unfold syncFile, try_catch. unfold bind at 1. rewrite Hread.
  unfold lift at 1. rewrite Hnone. reflexivity.
Qed.

Lemma syncFile_read_thrown owner repo filePath content branch
    (w w1 : World P) e t1 :
  readFileState owner repo filePath branch w = (Throw e, w1, t1) ->
  syncFile owner repo filePath content branch w
  = if includes "404" (message e) then
      let x := createRun owner repo filePath content branch w1 in
      (result_of x, world_of x,
       Call (readRequest owner repo filePath branch) :: trace_of x)
    else
      (Throw e, w1, [Call (readRequest owner repo filePath branch)]).
Proof.
  intros Hread.
  pose proof (githubRequest_eq _ _ _ _ _ _ _ Hread) as ->.
  unfold readFileState in Hread.
  unfold syncFile, try_catch. unfold bind at 1. rewrite Hread.
  destruct (includes "404" (message e)); [|reflexivity].
  rewrite createRun_eq.
  destruct (createRun _ _ _ _ _ w1) as [[r3 w3] t3]. reflexivity.
Qed.

Lemma createRun_calls owner repo filePath content branch (w : World P) :
  calls (trace_of (createRun owner repo filePath content branch w))
  = [createRequest owner repo filePath content branch].
Proof.
  unfold createRun.
  destruct (githubRequest _ PUT _ w) as [[[j|e] w'] t]; reflexivity.
Qed.

Lemma version_token_update owner repo filePath content sha branch :
  version_token (updateRequest owner repo filePath content sha branch) = sha.
Proof. apply prop_updateBody_sha. Qed.

Lemma version_token_create owner repo filePath content branch :
  version_token (createRequest owner repo filePath content branch) = None.
Proof. reflexivity. Qed.

Lemma writes_createRun owner repo filePath content branch (w : World P) pre :
  writes (pre ++ trace_of (createRun owner repo filePath content branch w))
  = writes pre ++ [createRequest owner repo filePath content branch].
Proof.
  unfold writes, calls. rewrite omap_app, filter_app. f_equal.
  change (omap _ (trace_of ?x)) with (calls (trace_of x)).
  rewrite createRun_calls. reflexivity.
Qed.

(** C1. An update write of [syncFile] is the request that immediately follows
    its read of the same path and branch, that read returned, and the write
    carries exactly the version token ([sha]) the read observed; when the read
    did not return, every write issued is the create, which carries no
    version token. *)
Theorem syncFile_update_carries_observed_token
    owner repo filePath content branch (w : World P) req :
  req ∈ writes (trace_of (syncFile owner repo filePath content branch w)) ->
  (forall sha, version_token req = Some sha ->
     exists existing w1 rest,
       readFileState owner repo filePath branch w
       = (Ok existing, w1, [Call (readRequest owner repo filePath branch)])
       /\ prop existing "sha" = Some sha
       /\ req = updateRequest owner repo filePath content (Some sha) branch
       /\ trace_of (syncFile owner repo filePath content branch w)
          = Call (readRequest owner repo filePath branch) :: Call req :: rest)
  /\ ((forall existing w1 t1,
         readFileState owner repo filePath branch w <> (Ok existing, w1, t1)) ->
      req = createRequest owner repo filePath content branch
      /\ version_token req = None).
Proof.
  intros Hin.
  destruct (readFileState owner repo filePath branch w) as [[[existing|e] w1] t1] eqn:Hread.
  - pose proof (githubRequest_eq _ _ _ _ _ _ _ Hread) as Ht1. subst t1.
    split; [|intros Hno; exfalso; eapply Hno; reflexivity].
    intros sha Hsha.
    destruct (prop existing "content") as [b64|] eqn:Hcontent.
    2:{ rewrite (syncFile_no_content _ _ _ _ _ _ _ _ _ Hread Hcontent) in Hin.
        inversion Hin. }
    destruct (decide (Buffer_from_base64 P b64 = content)) as [Heq|Hne].
    { rewrite (syncFile_up_to_date _ _ _ _ _ _ _ _ _ Hread) in Hin
        by (rewrite Hcontent; simpl; congruence).
      inversion Hin. }
    assert (Hdec : decodeContent (prop existing "content")
                   = Ok (Buffer_from_base64 P b64)) by (rewrite Hcontent; reflexivity).
    destruct (githubRequest (contentsEndpoint owner repo filePath) PUT
                (Some (updateBody filePath content (prop existing "sha") branch)) w1)
      as [[[j|e] w2] t2] eqn:Hput.
    + rewrite (syncFile_updated _ _ _ _ _ _ _ _ _ _ _ _ _ Hread Hdec Hne Hput) in Hin |- *.
      apply list_elem_of_singleton in Hin. subst req.
      rewrite version_token_update in Hsha.
      exists existing, w1, [Print (LogUpdated filePath)].
      rewrite Hsha. auto.
    + rewrite (syncFile_update_thrown _ _ _ _ _ _ _ _ _ _ _ _ _ Hread Hdec Hne Hput) in Hin |- *.
      destruct (includes "404" (message e)).
      * cbn [trace_of snd] in Hin |- *.
        rewrite writes_createRun in Hin.
        apply elem_of_app in Hin as [Hin|Hin].
        -- apply list_elem_of_singleton in Hin. subst req.
           rewrite version_token_update in Hsha.
           exists existing, w1, (createRun owner repo filePath content branch w2).2.
           rewrite Hsha. auto.
        -- apply list_elem_of_singleton in Hin. subst req.
           rewrite version_token_create in Hsha. discriminate.
      * apply list_elem_of_singleton in Hin. subst req.
        rewrite version_token_update in Hsha.
        exists existing, w1, []. rewrite Hsha. auto.
  - split.
    + intros sha Hsha. exfalso.
      rewrite (syncFile_read_thrown _ _ _ _ _ _ _ _ _ Hread) in Hin.
      destruct (includes "404" (message e)).
      * cbn [trace_of snd] in Hin.
        change (?a :: trace_of ?x) with ([a] ++ trace_of x) in Hin.
        rewrite writes_createRun in Hin.
        apply list_elem_of_singleton in Hin. subst req.
        rewrite version_token_create in Hsha. discriminate.
      * inversion Hin.
    + intros _.
      rewrite (syncFile_read_thrown _ _ _ _ _ _ _ _ _ Hread) in Hin.
      destruct (includes "404" (message e)).
      * cbn [trace_of snd] in Hin.
        change (?a :: trace_of ?x) with ([a] ++ trace_of x) in Hin.
        rewrite writes_createRun in Hin.
        apply list_elem_of_singleton in Hin. subst req. auto.
      * inversion Hin.
Qed.

Lemma updates_createRun owner repo filePath content branch (w : World P) pre :
  updates (pre ++ trace_of (createRun owner repo filePath content branch w))
  = updates pre.
Proof.
  unfold updates, calls. rewrite omap_app, filter_app.
  change (omap _ (trace_of ?x)) with (calls (trace_of x)).
  rewrite createRun_calls. apply app_nil_r.
Qed.

Lemma outcome_createRun owner repo filePath content branch (w : World P) pre :
  let x := createRun owner repo filePath content branch w in
  outcome (result_of x, world_of x, pre ++ trace_of x) <> Some unchanged
  /\ outcome (result_of x, world_of x, pre ++ trace_of x) <> Some updated.
Proof.
  unfold createRun.
  destruct (githubRequest _ PUT _ w) as [[[j|e] w'] t]; cbn -[last];
    unfold outcome, result_of, trace_of, printed; cbn -[last].
  - rewrite omap_app. cbn -[last]. rewrite last_snoc. split; discriminate.
  - split; discriminate.
Qed.

(** C2, as the code has it.  When the read returns a file with its content
    and version token: [syncFile] reports the file as unchanged and issues no
    write exactly when the decoded remote content equals the desired content;
    when they differ it issues exactly one update write, with the desired
    content and the observed version token, the outcome is never unchanged,
    and it is updated when that write returns. *)
Theorem syncFile_byte_equality_gate
    owner repo filePath content branch (w w1 : World P) existing t1 b64 sha :
  readFileState owner repo filePath branch w = (Ok existing, w1, t1) ->
  prop existing "content" = Some b64 ->
  prop existing "sha" = Some sha ->
  let x := syncFile owner repo filePath content branch w in
  let remote := Buffer_from_base64 P b64 in
  let update := updateRequest owner repo filePath content (Some sha) branch in
  (outcome x = Some unchanged /\ writes (trace_of x) = [] <-> remote = content)
  /\ (remote <> content ->
      updates (trace_of x) = [update]
      /\ prop (default [] (body update)) "content" = Some (encodeBase64 content)
      /\ outcome x <> Some unchanged
      /\ forall j w2 t2,
           githubRequest (contentsEndpoint owner repo filePath) PUT (body update) w1
           = (Ok j, w2, t2) ->
           outcome x = Some updated /\ writes (trace_of x) = [update]).
Proof.
  intros Hread Hcontent Hsha x remote update.
  assert (Hdec : decodeContent (prop existing "content") = Ok remote)
    by (rewrite Hcontent; reflexivity).
  assert (Hdiff : remote <> content ->
      updates (trace_of x) = [update]
      /\ outcome x <> Some unchanged
      /\ forall j w2 t2,
           githubRequest (contentsEndpoint owner repo filePath) PUT (body update) w1
           = (Ok j, w2, t2) ->
           outcome x = Some updated /\ writes (trace_of x) = [update]).
  { intros Hne. subst x.
    destruct (githubRequest (contentsEndpoint owner repo filePath) PUT
                (Some (updateBody filePath content (prop existing "sha") branch)) w1)
      as [[[j|e] w2] t2] eqn:Hput.
    - rewrite (syncFile_updated _ _ _ _ _ _ _ _ _ _ _ _ _ Hread Hdec Hne Hput).
      rewrite Hsha. split; [reflexivity|]. split; [discriminate|].
      intros; split; reflexivity.
    - rewrite (syncFile_update_thrown _ _ _ _ _ _ _ _ _ _ _ _ _ Hread Hdec Hne Hput).
      rewrite Hsha in Hput |- *. fold update in Hput |- *.
      destruct (includes "404" (message e)).
      + cbn zeta. split; [|split].
        * cbn [trace_of snd]. rewrite updates_createRun. reflexivity.
        * apply outcome_createRun.
        * intros j' w2' t2' Hput'. unfold update in Hput'. cbn [body updateRequest] in Hput'.
          rewrite Hput in Hput'. discriminate.
      + split; [reflexivity|]. split; [discriminate|].
        intros j' w2' t2' Hput'. unfold update in Hput'. cbn [body updateRequest] in Hput'.
        rewrite Hput in Hput'. discriminate. }
  split.
  - split.
    + intros [Hout Hw]. destruct (decide (remote = content)) as [|Hne]; [assumption|].
      destruct (Hdiff Hne) as (_ & Hno & _). contradiction.
    + intros Heq. subst x. rewrite Heq in Hdec.
      rewrite (syncFile_up_to_date _ _ _ _ _ _ _ _ _ Hread Hdec). split; reflexivity.
  - intros Hne. destruct (Hdiff Hne) as (Hu & Hno & Hok).
    split; [exact Hu|]. split; [reflexivity|]. split; [exact Hno|exact Hok].
Qed.

(** [syncFile] when its read throws: the create write follows exactly when the
    message of the error shows 404. *)
Lemma syncFile_create_path owner repo filePath content branch (w w1 : World P) e t1 :
  readFileState owner repo filePath branch w = (Throw e, w1, t1) ->
  includes "404" (message e) = true ->
  let x := syncFile owner repo filePath content branch w in
  calls (trace_of x) = [readRequest owner repo filePath branch;
                        createRequest owner repo filePath content branch]
  /\ forall j w2 t2,
       githubRequest (contentsEndpoint owner repo filePath) PUT
         (Some (createBody filePath content branch)) w1 = (Ok j, w2, t2) ->
       x = (Ok tt, w2, [Call (readRequest owner repo filePath branch);
                        Call (createRequest owner repo filePath content branch);
                        Print (LogCreated filePath)]).
Proof.
  intros Hread H404 x. subst x.
  rewrite (syncFile_read_thrown _ _ _ _ _ _ _ _ _ Hread), H404. cbn zeta.
  split.
  - cbn [trace_of snd]. change (calls (?a :: ?t)) with (calls [a] ++ calls t).
    rewrite createRun_calls. reflexivity.
  - intros j w2 t2 Hput. unfold createRun. rewrite Hput. reflexivity.
Qed.

(** C3. When the read of the existing file is answered with status 404,
    [syncFile] issues exactly one write, the create: a [PUT] with the desired
    content and no version token; when that write returns, the outcome is
    created. *)
Theorem syncFile_not_found_creates
    owner repo filePath content branch (w w1 : World P) response :
  fetch P (readRequest owner repo filePath branch) w = (Ok response, w1) ->
  status response = 404%N ->
  let x := syncFile owner repo filePath content branch w in
  let create := createRequest owner repo filePath content branch in
  writes (trace_of x) = [create]
  /\ creates (trace_of x) = [create]
  /\ updates (trace_of x) = []
  /\ method create = PUT
  /\ version_token create = None
  /\ prop (default [] (body create)) "content" = Some (encodeBase64 content)
  /\ forall j w2 t2,
       githubRequest (contentsEndpoint owner repo filePath) PUT (body create) w1
       = (Ok j, w2, t2) ->
       outcome x = Some created /\ calls (trace_of x) = [readRequest owner repo filePath branch; create].
Proof.
  intros Hfetch Hstatus x create.
  assert (Hok : ok response = false) by (unfold ok; rewrite Hstatus; reflexivity).
  pose proof (githubRequest_not_ok _ GET None w w1 response Hfetch Hok) as Hread.
  rewrite Hstatus in Hread.
  destruct (syncFile_create_path owner repo filePath content branch w w1 _ _ Hread
              (error_message_404 _)) as [Hcalls Hdone].
  fold x in Hcalls, Hdone. fold create in Hcalls.
  unfold writes, creates, updates. rewrite Hcalls.
  do 6 (split; [reflexivity|]).
  intros j w2 t2 Hput. rewrite (Hdone j w2 t2 Hput). split; reflexivity.
Qed.

(** ** The runs of [setVariable] *)

Lemma setVariable_catch owner repo variableName value (w : World P) e pre :
  (let '(r, w', t) :=
     (if includes "404" (message e)
      then bind (postVariable owner repo variableName value) (fun _ => ret tt)
      else throw e) w in (r, w', pre ++ t))
  = if includes "404" (message e) then
      (match result_of (postVariable owner repo variableName value w) with
       | Ok _ => Ok tt
       | Throw e' => Throw e'
       end,
       world_of (postVariable owner repo variableName value w),
       pre ++ [Call (variableCreate owner repo variableName value)])
    else (Throw e, w, pre).
Proof.
  destruct (includes "404" (message e)).
  - unfold bind.
    destruct (postVariable owner repo variableName value w) as [[[j|e'] w'] t] eqn:Hpost;
      rewrite (githubRequest_eq _ _ _ _ _ _ _ Hpost); cbn; rewrite ?app_nil_r; reflexivity.
  - cbn. rewrite app_nil_r. reflexivity.
Qed.

Lemma setVariable_present owner repo variableName value (w w1 w2 : World P) j t1 j2 t2 :
  readVariable owner repo variableName w = (Ok j, w1, t1) ->
  patchVariable owner repo variableName value w1 = (Ok j2, w2, t2) ->
  setVariable owner repo variableName value w
  = (Ok tt, w2, [Call (variableRead owner repo variableName);
                 Call (variableUpdate owner repo variableName value)]).
Proof.
  intros Hread Hpatch.
  pose proof (githubRequest_eq _ _ _ _ _ _ _ Hread) as ->.
  pose proof (githubRequest_eq _ _ _ _ _ _ _ Hpatch) as ->.
  unfold readVariable in Hread. unfold patchVariable in Hpatch.
  unfold setVariable, try_catch, bind. rewrite Hread, Hpatch. reflexivity.
Qed.

Lemma setVariable_update_thrown owner repo variableName value
    (w w1 w2 : World P) j t1 e t2 :
  readVariable owner repo variableName w = (Ok j, w1, t1) ->
  patchVariable owner repo variableName value w1 = (Throw e, w2, t2) ->
  setVariable owner repo variableName value w
  = if includes "404" (message e) then
      (match result_of (postVariable owner repo variableName value w2) with
       | Ok _ => Ok tt
       | Throw e' => Throw e'
       end,
       world_of (postVariable owner repo variableName value w2),
       [Call (variableRead owner repo variableName);
        Call (variableUpdate owner repo variableName value)]
       ++ [Call (variableCreate owner repo variableName value)])
    else (Throw e, w2, [Call (variableRead owner repo variableName);
                        Call (variableUpdate owner repo variableName value)]).
Proof.
  intros Hread Hpatch.
  pose proof (githubRequest_eq _ _ _ _ _ _ _ Hread) as ->.
  pose proof (githubRequest_eq _ _ _ _ _ _ _ Hpatch) as ->.
  unfold readVariable in Hread. unfold patchVariable in Hpatch.
  unfold setVariable, try_catch. unfold bind at 1. rewrite Hread.
  unfold bind at 1. rewrite Hpatch.
  apply (setVariable_catch owner repo variableName value w2 e).
Qed.

Lemma setVariable_read_thrown owner repo variableName value (w w1 : World P) e t1 :
  readVariable owner repo variableName w = (Throw e, w1, t1) ->
  setVariable owner repo variableName value w
  = if includes "404" (message e) then
      (match result_of (postVariable owner repo variableName value w1) with
       | Ok _ => Ok tt
       | Throw e' => Throw e'
       end,
       world_of (postVariable owner repo variableName value w1),
       [Call (variableRead owner repo variableName)]
       ++ [Call (variableCreate owner repo variableName value)])
    else (Throw e, w1, [Call (variableRead owner repo variableName)]).
Proof.
  intros Hread.
  pose proof (githubRequest_eq _ _ _ _ _ _ _ Hread) as ->.
  unfold readVariable in Hread.
  unfold setVariable, try_catch. unfold bind at 1. rewrite Hread.
  apply (setVariable_catch owner repo variableName value w1 e).
Qed.

(** C7, as the code has it.  [setVariable] first reads the variable.  When
    the read returns, it issues exactly one update call, which carries the
    value whatever the read returned, and no create call unless that update
    throws an error whose message shows 404.  When the read is answered with
    status 404, it issues exactly one create call and no update call. *)
Theorem setVariable_create_vs_update
    owner repo variableName value (w : World P) :
  let x := setVariable owner repo variableName value w in
  let update := variableUpdate owner repo variableName value in
  let create := variableCreate owner repo variableName value in
  (exists rest, calls (trace_of x) = variableRead owner repo variableName :: rest)
  /\ (forall j w1 t1,
        readVariable owner repo variableName w = (Ok j, w1, t1) ->
        variable_updates (trace_of x) = [update]
        /\ prop (default [] (body update)) "value" = Some value
        /\ ((forall e w2 t2,
               patchVariable owner repo variableName value w1 = (Throw e, w2, t2) ->
               includes "404" (message e) = false) ->
            variable_creates (trace_of x) = []))
  /\ (forall response w1,
        fetch P (variableRead owner repo variableName) w = (Ok response, w1) ->
        status response = 404%N ->
        variable_creates (trace_of x) = [create]
        /\ variable_updates (trace_of x) = []).
Proof.
  intros x update create. subst x.
  destruct (readVariable owner repo variableName w) as [[[j|e] w1] t1] eqn:Hread.
  - destruct (patchVariable owner repo variableName value w1)
      as [[[j2|e2] w2] t2] eqn:Hpatch.
    + rewrite (setVariable_present _ _ _ _ _ _ _ _ _ _ _ Hread Hpatch).
      split; [eexists; reflexivity|]. split.
      * intros j' w1' t1' Heq. injection Heq as -> -> ->.
        split; [reflexivity|]. split; [reflexivity|]. reflexivity.
      * intros response w1' Hfetch Hstatus. exfalso.
        assert (Hok : ok response = false) by (unfold ok; rewrite Hstatus; reflexivity).
        pose proof (githubRequest_not_ok _ GET None w w1' response Hfetch Hok) as Hthrown.
        unfold readVariable in Hread. rewrite Hread in Hthrown. discriminate.
    + rewrite (setVariable_update_thrown _ _ _ _ _ _ _ _ _ _ _ Hread Hpatch).
      assert (Hno404 : forall response w1',
                fetch P (variableRead owner repo variableName) w = (Ok response, w1') ->
                status response = 404%N -> False).
      { intros response w1' Hfetch Hstatus.
        assert (Hok : ok response = false) by (unfold ok; rewrite Hstatus; reflexivity).
        pose proof (githubRequest_not_ok _ GET None w w1' response Hfetch Hok) as Hthrown.
        unfold readVariable in Hread. rewrite Hread in Hthrown. discriminate. }
      destruct (includes "404" (message e2)) eqn:H404.
      * split; [eexists; reflexivity|]. split.
        -- intros j' w1' t1' Heq. injection Heq as -> -> ->.
           split; [reflexivity|]. split; [reflexivity|].
           intros Hnever. rewrite (Hnever _ _ _ Hpatch) in H404. discriminate.
        -- intros response w1' Hfetch Hstatus. destruct (Hno404 _ _ Hfetch Hstatus).
      * split; [eexists; reflexivity|]. split.
        -- intros j' w1' t1' Heq. injection Heq as -> -> ->.
           split; [reflexivity|]. split; [reflexivity|]. reflexivity.
        -- intros response w1' Hfetch Hstatus. destruct (Hno404 _ _ Hfetch Hstatus).
  - rewrite (setVariable_read_thrown _ _ _ _ _ _ _ _ Hread).
    split; [destruct (includes "404" (message e)); eexists; reflexivity|].
    split; [intros j w1' t1' Heq; discriminate|].
    intros response w1' Hfetch Hstatus.
    assert (Hok : ok response = false) by (unfold ok; rewrite Hstatus; reflexivity).
    pose proof (githubRequest_not_ok _ GET None w w1' response Hfetch Hok) as Hthrown.
    unfold readVariable in Hread. rewrite Hread in Hthrown.
    injection Hthrown as -> -> _. cbn [message]. rewrite Hstatus.
    rewrite error_message_404. split; reflexivity.
Qed.

(** C9. Whether a failure counts as not-found is decided by looking for the
    text 404 in the message of the thrown error, which is the status followed
    by the response body.  So a response that is not a 404 but whose body
    shows 404 takes the create path, in [syncFile] and in [setVariable], both
    when it answers the read and when it answers the update write: the create
    write is issued, and when it returns nothing is reported as failed.  In
    general, after a read that threw, the create request is issued exactly
    when the message of the error shows 404. *)
Theorem not_found_is_a_substring_test (response : Response) :
  ok response = false ->
  status response <> 404%N ->
  includes "404" (text response) = true ->
  (forall owner repo filePath content branch (w w1 : World P),
     fetch P (readRequest owner repo filePath branch) w = (Ok response, w1) ->
     let x := syncFile owner repo filePath content branch w in
     calls (trace_of x) = [readRequest owner repo filePath branch;
                           createRequest owner repo filePath content branch]
     /\ forall j w2 t2,
          githubRequest (contentsEndpoint owner repo filePath) PUT
            (Some (createBody filePath content branch)) w1 = (Ok j, w2, t2) ->
          outcome x = Some created)
  /\ (forall owner repo filePath content branch (w w1 w2 : World P) existing t1 remote,
        readFileState owner repo filePath branch w = (Ok existing, w1, t1) ->
        decodeContent (prop existing "content") = Ok remote ->
        remote <> content ->
        fetch P (updateRequest owner repo filePath content (prop existing "sha") branch) w1
        = (Ok response, w2) ->
        calls (trace_of (syncFile owner repo filePath content branch w))
        = [readRequest owner repo filePath branch;
           updateRequest owner repo filePath content (prop existing "sha") branch;
           createRequest owner repo filePath content branch])
  /\ (forall owner repo variableName value (w w1 : World P),
        fetch P (variableRead owner repo variableName) w = (Ok response, w1) ->
        calls (trace_of (setVariable owner repo variableName value w))
        = [variableRead owner repo variableName;
           variableCreate owner repo variableName value])
  /\ (forall owner repo variableName value (w w1 w2 : World P) j t1,
        readVariable owner repo variableName w = (Ok j, w1, t1) ->
        fetch P (variableUpdate owner repo variableName value) w1 = (Ok response, w2) ->
        calls (trace_of (setVariable owner repo variableName value w))
        = [variableRead owner repo variableName;
           variableUpdate owner repo variableName value;
           variableCreate owner repo variableName value])
  /\ (forall owner repo filePath content branch (w w1 : World P) e t1,
        readFileState owner repo filePath branch w = (Throw e, w1, t1) ->
        createRequest owner repo filePath content branch
        ∈ calls (trace_of (syncFile owner repo filePath content branch w))
        <-> includes "404" (message e) = true)
  /\ (forall owner repo variableName value (w w1 : World P) e t1,
        readVariable owner repo variableName w = (Throw e, w1, t1) ->
        variableCreate owner repo variableName value
        ∈ calls (trace_of (setVariable owner repo variableName value w))
        <-> includes "404" (message e) = true).
Proof.
  intros Hok Hstatus Hbody.
  pose proof (error_message_includes "404" (status response) (text response) Hbody) as H404.
  split; [|split; [|split; [|split; [|split]]]].
  - intros owner repo filePath content branch w w1 Hfetch x.
    pose proof (githubRequest_not_ok _ GET None w w1 response Hfetch Hok) as Hread.
    destruct (syncFile_create_path owner repo filePath content branch w w1 _ _ Hread H404)
      as [Hcalls Hdone].
    split; [exact Hcalls|].
    intros j w2 t2 Hput. subst x. rewrite (Hdone j w2 t2 Hput). reflexivity.
  - intros owner repo filePath content branch w w1 w2 existing t1 remote
      Hread Hdec Hne Hfetch.
    pose proof (githubRequest_not_ok _ PUT _ w1 w2 response Hfetch Hok) as Hput.
    rewrite (syncFile_update_thrown _ _ _ _ _ _ _ _ _ _ _ _ _ Hread Hdec Hne Hput).
    cbn [message]. rewrite H404. cbn [trace_of snd].
    unfold calls. rewrite omap_app.
    change (omap _ (trace_of ?x)) with (calls (trace_of x)).
    rewrite createRun_calls. reflexivity.
  - intros owner repo variableName value w w1 Hfetch.
    pose proof (githubRequest_not_ok _ GET None w w1 response Hfetch Hok) as Hread.
    rewrite (setVariable_read_thrown _ _ _ _ _ _ _ _ Hread).
    cbn [message]. rewrite H404. reflexivity.
  - intros owner repo variableName value w w1 w2 j t1 Hread Hfetch.
    pose proof (githubRequest_not_ok _ PATCH _ w1 w2 response Hfetch Hok) as Hpatch.
    rewrite (setVariable_update_thrown _ _ _ _ _ _ _ _ _ _ _ Hread Hpatch).
    cbn [message]. rewrite H404. reflexivity.
  - intros owner repo filePath content branch w w1 e t1 Hread.
    rewrite (syncFile_read_thrown _ _ _ _ _ _ _ _ _ Hread).
    destruct (includes "404" (message e)).
    + cbn [trace_of snd]. change (calls (?a :: ?t)) with (calls [a] ++ calls t).
      rewrite createRun_calls. split; [reflexivity|]. intros _.
      apply list_elem_of_further, list_elem_of_here.
    + split; [|discriminate]. intros Hin. cbn in Hin.
      apply list_elem_of_singleton in Hin. discriminate.
  - intros owner repo variableName value w w1 e t1 Hread.
    rewrite (setVariable_read_thrown _ _ _ _ _ _ _ _ Hread).
    destruct (includes "404" (message e)).
    + split; [reflexivity|]. intros _. cbn. apply list_elem_of_further, list_elem_of_here.
    + split; [|discriminate]. intros Hin. cbn in Hin.
      apply list_elem_of_singleton in Hin. discriminate.
Qed.

(** ** Loops and failure scopes *)

(** A [catch] that only prints never lets the error out. *)
Lemma try_catch_report (m : Io P unit) (report : Error -> Line) (w : World P) :
  try_catch m (fun error => console (report error)) w
  = match m w with
    | (Ok a, w1, t) => (Ok a, w1, t)
    | (Throw e, w1, t) => (Ok tt, w1, t ++ [Print (report e)])
    end.
Proof. unfold try_catch, console. destruct (m w) as [[[a|e] w1] t]; reflexivity. Qed.

Lemma try_catch_report_total (m : Io P unit) (report : Error -> Line) (w : World P) :
  result_of (try_catch m (fun error => console (report error)) w) = Ok tt.
Proof.
  rewrite try_catch_report. destruct (m w) as [[[[]|e] w1] t]; reflexivity.
Qed.

(** A loop whose body never throws runs the body on every element. *)
Lemma for_of_visits {A} (body : A -> Io P unit) (xs : list A) (w : World P) :
  (forall x w', result_of (body x w') = Ok tt) ->
  result_of (for_of xs body w) = Ok tt
  /\ forall x, x ∈ xs ->
       exists w', forall ev, ev ∈ trace_of (body x w') -> ev ∈ trace_of (for_of xs body w).
Proof.
  intros Htotal. revert w. induction xs as [|a xs IH]; intros w.
  - split; [reflexivity|]. intros x Hx. inversion Hx.
  - cbn [for_of]. unfold bind.
    pose proof (Htotal a w) as Ha.
    destruct (body a w) as [[[[]|e] w1] t1] eqn:Hbody; [|discriminate].
    destruct (IH w1) as [Hres Hin].
    destruct (for_of xs body w1) as [[r2 w2] t2] eqn:Hrest.
    split; [exact Hres|].
    intros x Hx. apply elem_of_cons in Hx as [->|Hx].
    + exists w. rewrite Hbody. intros ev Hev. cbn in *. apply elem_of_app. left. exact Hev.
    + destruct (Hin x Hx) as [w' Hw']. exists w'. intros ev Hev.
      cbn. apply elem_of_app. right. apply Hw', Hev.
Qed.

(** A loop ends where its body throws: the elements after are not run. *)
Lemma for_of_stops {A} (body : A -> Io P unit) before x after (w w1 w2 : World P) t1 e t2 :
  for_of before body w = (Ok tt, w1, t1) ->
  body x w1 = (Throw e, w2, t2) ->
  for_of (before ++ x :: after) body w = (Throw e, w2, t1 ++ t2).
Proof.
  revert w t1. induction before as [|a before IH]; intros w t1 Hbefore Hx.
  - injection Hbefore as <- <-. cbn [app for_of]. unfold bind. rewrite Hx. reflexivity.
  - cbn [app for_of] in *. unfold bind in *.
    destruct (body a w) as [[[[]|e'] w'] t'] eqn:Hbody; [|discriminate].
    destruct (for_of before body w') as [[r'' w''] t''] eqn:Hrest.
    injection Hbefore as -> -> <-.
    rewrite (IH w' t'' Hrest Hx). rewrite app_assoc. reflexivity.
Qed.

Lemma syncFile_trace_head owner repo filePath content branch (w : World P) :
  exists rest, trace_of (syncFile owner repo filePath content branch w)
               = Call (readRequest owner repo filePath branch) :: rest.
Proof.
  destruct (readFileState owner repo filePath branch w) as [[[existing|e] w1] t1] eqn:Hread.
  - destruct (prop existing "content") as [b64|] eqn:Hcontent.
    2:{ rewrite (syncFile_no_content _ _ _ _ _ _ _ _ _ Hread Hcontent). eexists; reflexivity. }
    assert (Hdec : decodeContent (prop existing "content")
                   = Ok (Buffer_from_base64 P b64)) by (rewrite Hcontent; reflexivity).
    destruct (decide (Buffer_from_base64 P b64 = content)) as [Heq|Hne].
    { rewrite Heq in Hdec.
      rewrite (syncFile_up_to_date _ _ _ _ _ _ _ _ _ Hread Hdec). eexists; reflexivity. }
    destruct (githubRequest (contentsEndpoint owner repo filePath) PUT
                (Some (updateBody filePath content (prop existing "sha") branch)) w1)
      as [[[j|e] w2] t2] eqn:Hput.
    + rewrite (syncFile_updated _ _ _ _ _ _ _ _ _ _ _ _ _ Hread Hdec Hne Hput).
      eexists; reflexivity.
    + rewrite (syncFile_update_thrown _ _ _ _ _ _ _ _ _ _ _ _ _ Hread Hdec Hne Hput).
      destruct (includes "404" (message e)); eexists; reflexivity.
  - rewrite (syncFile_read_thrown _ _ _ _ _ _ _ _ _ Hread).
    destruct (includes "404" (message e)); eexists; reflexivity.
Qed.

(** The body of the loop over the workflows, once the template is read. *)
Lemma syncWorkflow_readable owner repo branch workflowName templateContent (w : World P) :
  readFile P (templatePath workflowName) = Ok templateContent ->
  syncWorkflow owner repo branch workflowName w
  = try_catch
      (bind (syncFile owner repo (targetPath workflowName) templateContent branch)
            (fun _ => syncCommands owner repo branch))
      (fun error => console (LogWorkflowError workflowName (message error))) w.
Proof.
  intros Hread. unfold syncWorkflow, templatePath in *.
  unfold try_catch. unfold bind at 1. unfold lift at 1. rewrite Hread.
  fold (targetPath workflowName).
  destruct (bind _ _ w) as [[[a|e] w1] t]; reflexivity.
Qed.

Lemma syncWorkflow_total owner repo branch workflowName (w : World P) :
  result_of (syncWorkflow owner repo branch workflowName w) = Ok tt.
Proof. apply try_catch_report_total. Qed.

Lemma syncRunsOn_total owner repo repoConfig (w : World P) :
  result_of (syncRunsOn owner repo repoConfig w) = Ok tt.
Proof.
  unfold syncRunsOn. destruct (truthy (runsOn repoConfig)); [|reflexivity].
  apply try_catch_report_total.
Qed.

(** A turn of the loop over the repositories: the line of the repository, the
    variable step, then the file steps from the world the variable step left. *)
Lemma syncRepository_steps repoConfig (w : World P) :
  let xv := syncRunsOn (repoOwner repoConfig) (repoName repoConfig) repoConfig w in
  let xf := for_of (declaredWorkflows repoConfig)
              (syncWorkflow (repoOwner repoConfig) (repoName repoConfig)
                 (repoBranch repoConfig)) (world_of xv) in
  syncRepository repoConfig w
  = (Ok tt, world_of xf,
     Print (LogRepository (name repoConfig)) :: trace_of xv
     ++ match declaredWorkflows repoConfig with
        | [] => [Print LogNoWorkflows]
        | _ => trace_of xf
        end).
Proof.
  intros xv xf. subst xv xf.
  unfold syncRepository. fold (repoOwner repoConfig) (repoName repoConfig) (repoBranch repoConfig).
  unfold bind at 1. unfold console at 1. unfold bind at 1.
  pose proof (syncRunsOn_total (repoOwner repoConfig) (repoName repoConfig) repoConfig w) as Hv.
  destruct (syncRunsOn _ _ repoConfig w) as [[[[]|e] w1] tv]; [|discriminate].
  cbn [world_of trace_of fst snd].
  unfold declaredWorkflows.
  destruct (workflows repoConfig) as [[|wn ws]|]; cbn [default from_option id]; try reflexivity.
  pose proof (proj1 (for_of_visits
    (syncWorkflow (repoOwner repoConfig) (repoName repoConfig) (repoBranch repoConfig))
    (wn :: ws) w1 (fun x w' => syncWorkflow_total _ _ _ x w'))) as Hf.
  destruct (for_of (wn :: ws) _ w1) as [[[[]|e] w2] tf]; [|discriminate].
  reflexivity.
Qed.

Lemma syncRepository_total repoConfig (w : World P) :
  result_of (syncRepository repoConfig w) = Ok tt.
Proof. rewrite syncRepository_steps. reflexivity. Qed.

Lemma main_steps config repos (w : World P) :
  loadConfig = Ok config ->
  repositories config = Some repos ->
  repos <> [] ->
  main w = (Ok tt, world_of (for_of repos syncRepository w),
            Print LogBanner :: trace_of (for_of repos syncRepository w)
            ++ [Print LogDone]).
Proof.
  intros Hload Hrepos Hne.
  unfold main. unfold bind at 1. unfold console at 1.
  unfold bind at 1. unfold lift at 1. rewrite Hload, Hrepos.
  destruct repos as [|rc repos]; [congruence|].
  unfold bind at 1.
  pose proof (proj1 (for_of_visits syncRepository (rc :: repos) w
                       syncRepository_total)) as Hr.
  destruct (for_of (rc :: repos) syncRepository w) as [[[[]|e] w1] t1]; [|discriminate].
  reflexivity.
Qed.

Lemma main_no_repositories config (w : World P) :
  loadConfig = Ok config ->
  repositories config = None \/ repositories config = Some [] ->
  main w = (Ok tt, w, [Print LogBanner; Print LogNoRepositories]).
Proof.
  intros Hload Hrepos.
  unfold main. unfold bind at 1. unfold console at 1.
  unfold bind at 1. unfold lift at 1. rewrite Hload.
  destruct Hrepos as [-> | ->]; reflexivity.
Qed.


(** ** What kind of events a run consists of *)

Section TraceInvariant.
Variable Q : Event -> Prop.

Lemma bind_Forall {A B} (m : Io P A) (k : A -> Io P B) (w : World P) :
  (forall w', Forall Q (trace_of (m w'))) ->
  (forall a w', Forall Q (trace_of (k a w'))) ->
  Forall Q (trace_of (bind m k w)).
Proof.
  intros Hm Hk. unfold bind. specialize (Hm w).
  destruct (m w) as [[[a|e] w1] t1]; [|exact Hm].
  specialize (Hk a w1). destruct (k a w1) as [[r w2] t2].
  apply Forall_app. split; assumption.
Qed.

Lemma try_catch_Forall {A} (m : Io P A) (handler : Error -> Io P A) (w : World P) :
  (forall w', Forall Q (trace_of (m w'))) ->
  (forall e w', Forall Q (trace_of (handler e w'))) ->
  Forall Q (trace_of (try_catch m handler w)).
Proof.
  intros Hm Hh. unfold try_catch. specialize (Hm w).
  destruct (m w) as [[[a|e] w1] t1]; [exact Hm|].
  specialize (Hh e w1). destruct (handler e w1) as [[r w2] t2].
  apply Forall_app. split; assumption.
Qed.

Lemma for_of_Forall {A} (body : A -> Io P unit) (xs : list A) (w : World P) :
  (forall x w', Forall Q (trace_of (body x w'))) ->
  Forall Q (trace_of (for_of xs body w)).
Proof.
  intros Hbody. revert w. induction xs as [|x xs IH]; intros w.
  - constructor.
  - cbn [for_of]. apply bind_Forall; [apply Hbody|]. intros _ w'. apply IH.
Qed.

Lemma githubRequest_Forall endpoint meth payload (w : World P) :
  Q (Call (mkRequest (GITHUB_API +:+ endpoint) meth payload)) ->
  Forall Q (trace_of (githubRequest endpoint meth payload w)).
Proof. intros H. rewrite githubRequest_trace. repeat constructor. exact H. Qed.
End TraceInvariant.

Lemma append_assoc (a b c : string) : (a +:+ b) +:+ c = a +:+ b +:+ c.
Proof.
  induction a as [|x a IH]; [reflexivity|].
  change (String x ((a +:+ b) +:+ c) = String x (a +:+ b +:+ c)).
  f_equal. exact IH.
Qed.

Lemma contentsEndpoint_app owner repo filePath suffix :
  contentsEndpoint owner repo filePath +:+ suffix
  = contentsEndpoint owner repo (filePath +:+ suffix).
Proof. unfold contentsEndpoint. rewrite !append_assoc. reflexivity. Qed.

Ltac trace_steps_with leaf :=
  repeat first
    [ leaf
    | apply githubRequest_Forall
    | apply try_catch_Forall; intros
    | apply bind_Forall; intros
    | apply for_of_Forall; intros
    | match goal with |- Forall _ (trace_of ((if ?c then _ else _) _)) => destruct c end
    | match goal with |- Forall _ (trace_of (lift _ _)) => constructor end
    | match goal with |- Forall _ (trace_of (throw _ _)) => constructor end
    | match goal with |- Forall _ (trace_of (ret _ _)) => constructor end
    | match goal with |- Forall _ (trace_of (console _ _)) => repeat constructor end ].

Ltac trace_steps := trace_steps_with fail.

Lemma syncFile_file_events owner repo filePath content branch (w : World P) :
  Forall (file_event owner repo) (trace_of (syncFile owner repo filePath content branch w)).
Proof.
  unfold syncFile. trace_steps; cbn.
  - exists (filePath +:+ "?ref=" +:+ branch). rewrite contentsEndpoint_app. reflexivity.
  - exists filePath. reflexivity.
  - exists filePath. reflexivity.
Qed.

Lemma syncWorkflow_file_events owner repo branch workflowName (w : World P) :
  Forall (file_event owner repo) (trace_of (syncWorkflow owner repo branch workflowName w)).
Proof.
  unfold syncWorkflow, syncCommands, syncCommand.
  trace_steps_with ltac:(apply syncFile_file_events).
Qed.

Lemma setVariable_variable_events owner repo variableName value (w : World P) :
  Forall (variable_event owner repo)
    (trace_of (setVariable owner repo variableName value w)).
Proof.
  unfold setVariable. trace_steps; cbn.
  - exists ("/" +:+ variableName). reflexivity.
  - exists ("/" +:+ variableName). reflexivity.
  - exists "". reflexivity.
Qed.

Lemma setVariable_trace_head owner repo variableName value (w : World P) :
  exists rest, trace_of (setVariable owner repo variableName value w)
               = Call (variableRead owner repo variableName) :: rest.
Proof.
  destruct (readVariable owner repo variableName w) as [[[j|e] w1] t1] eqn:Hread.
  - destruct (patchVariable owner repo variableName value w1)
      as [[[j2|e2] w2] t2] eqn:Hpatch.
    + rewrite (setVariable_present _ _ _ _ _ _ _ _ _ _ _ Hread Hpatch). eexists; reflexivity.
    + rewrite (setVariable_update_thrown _ _ _ _ _ _ _ _ _ _ _ Hread Hpatch).
      destruct (includes "404" (message e2)); eexists; reflexivity.
  - rewrite (setVariable_read_thrown _ _ _ _ _ _ _ _ Hread).
    destruct (includes "404" (message e)); eexists; reflexivity.
Qed.

(** The variable step of a repository that declares [runsOn]: the outcome of
    [setVariable] is printed, and the step itself never throws. *)
Lemma syncRunsOn_steps owner repo repoConfig value (w : World P) :
  truthy (runsOn repoConfig) = Some value ->
  let xv := setVariable owner repo "RUNS_ON" value w in
  syncRunsOn owner repo repoConfig w
  = (Ok tt, world_of xv,
     trace_of xv ++ [Print (match result_of xv with
                            | Ok _ => LogVariableSet value
                            | Throw e => LogVariableError (message e)
                            end)]).
Proof.
  intros Htruthy xv. subst xv. unfold syncRunsOn. rewrite Htruthy.
  rewrite try_catch_report. unfold bind, console.
  destruct (setVariable owner repo "RUNS_ON" value w) as [[[[]|e] w1] t1]; reflexivity.
Qed.

(** C8. For a repository that declares its runtime target, the batch driver
    reconciles the variable first and its files after: the trace of the
    repository is the requests of [setVariable], the line that reports how it
    went, then the file steps, run from the world the variable step left.
    Whether [setVariable] returned or threw, the file steps run: the file of
    every workflow whose template can be read is read remotely. *)
Theorem variable_before_files repoConfig value (w : World P) :
  truthy (runsOn repoConfig) = Some value ->
  let owner := repoOwner repoConfig in
  let repo := repoName repoConfig in
  let branch := repoBranch repoConfig in
  let xv := setVariable owner repo "RUNS_ON" value w in
  let xf := for_of (declaredWorkflows repoConfig) (syncWorkflow owner repo branch)
              (world_of xv) in
  trace_of (syncRepository repoConfig w)
  = Print (LogRepository (name repoConfig)) :: trace_of xv
    ++ [Print (match result_of xv with
               | Ok _ => LogVariableSet value
               | Throw e => LogVariableError (message e)
               end)]
    ++ match declaredWorkflows repoConfig with
       | [] => [Print LogNoWorkflows]
       | _ => trace_of xf
       end
  /\ (exists rest, trace_of xv = Call (variableRead owner repo "RUNS_ON") :: rest)
  /\ Forall (variable_event owner repo) (trace_of xv)
  /\ Forall (file_event owner repo) (trace_of xf)
  /\ result_of xf = Ok tt
  /\ forall workflowName templateContent,
       workflowName ∈ declaredWorkflows repoConfig ->
       readFile P (templatePath workflowName) = Ok templateContent ->
       Call (readRequest owner repo (targetPath workflowName) branch) ∈ trace_of xf.
Proof.
  intros Htruthy owner repo branch xv xf.
  split; [|split; [|split; [|split; [|split]]]].
  - rewrite syncRepository_steps. cbn [trace_of snd].
    rewrite (syncRunsOn_steps _ _ _ _ _ Htruthy). cbn [trace_of world_of fst snd].
    rewrite <- app_assoc. reflexivity.
  - apply setVariable_trace_head.
  - apply setVariable_variable_events.
  - apply for_of_Forall. intros x w'. apply syncWorkflow_file_events.
  - apply for_of_visits. intros x w'. apply syncWorkflow_total.
  - intros wn c Hwn Hc.
    destruct (for_of_visits (syncWorkflow owner repo branch) (declaredWorkflows repoConfig)
                (world_of xv) (fun x w0 => syncWorkflow_total _ _ _ x w0)) as [_ Hvisit].
    destruct (Hvisit wn Hwn) as [w'' Hw'']. apply Hw''.
    rewrite (syncWorkflow_readable _ _ _ _ _ _ Hc), try_catch_report.
    destruct (syncFile_trace_head owner repo (targetPath wn) c branch w'') as [rest Hhead].
    unfold bind.
    destruct (syncFile _ _ _ _ _ w'') as [[[[]|e] w1] t1]; cbn [trace_of snd] in Hhead;
      subst t1.
    + destruct (syncCommands _ _ _ w1) as [[[[]|e] w2] t2]; cbn; apply list_elem_of_here.
    + cbn. apply list_elem_of_here.
Qed.

(** ** The files that [getFilesRecursively] lists *)

Lemma strip_prefix_app (pre rest : string) : strip_prefix pre (pre +:+ rest) = Some rest.
Proof.
  induction pre as [|c pre IH]; [destruct rest; reflexivity|].
  change (String c pre +:+ rest) with (String c (pre +:+ rest)).
  cbn [strip_prefix]. rewrite Ascii.eqb_refl. exact IH.
Qed.

Lemma path_relative_below (from rest : string) :
  path_relative from (from +:+ "/" +:+ rest) = rest.
Proof.
  unfold path_relative. rewrite <- append_assoc, strip_prefix_app. reflexivity.
Qed.

(** Every path pushed while listing [dir] lies below [dir]. *)
Lemma collectEntry_below :
  forall (file : DirEntry) dir fileList files,
    collectEntry dir file fileList = Ok files ->
    exists more, files = fileList ++ more
                 /\ Forall (fun f => exists rest, f = dir +:+ "/" +:+ rest) more.
Proof.
  fix IH 1. intros [n|n sub] dir fileList files Hc.
  - cbn in Hc. injection Hc as <-. exists [dir +:+ "/" +:+ n].
    split; [reflexivity|]. repeat constructor. eexists; reflexivity.
  - cbn in Hc. destruct sub as [entries|e]; [|discriminate].
    revert fileList files Hc.
    induction entries as [|entry entries IHentries]; intros fileList files Hc.
    + cbn in Hc. injection Hc as <-. exists []. rewrite app_nil_r. split; constructor.
    + cbn [fold_result] in Hc.
      destruct (collectEntry (dir +:+ "/" +:+ n) entry fileList) as [acc|e] eqn:Hentry;
        [|discriminate].
      destruct (IH entry _ _ _ Hentry) as (more1 & -> & Hmore1).
      destruct (IHentries _ _ Hc) as (more2 & -> & Hmore2).
      exists (more1 ++ more2). split; [symmetry; apply app_assoc|]. 
      apply Forall_app. split; [|exact Hmore2].
      eapply Forall_impl; [exact Hmore1|].
      intros f [rest ->]. exists (n +:+ "/" +:+ rest).
      rewrite <- !append_assoc. reflexivity.
Qed.

(** So [path.relative] is applied only to paths below [templates], and gives
    what follows that directory. *)
Lemma getFilesRecursively_below commandFiles :
  getFilesRecursively commandsDir (commandsListing P) [] = Ok commandFiles ->
  Forall (fun commandFile =>
            exists rest,
              commandFile = templatesDir +:+ "/" +:+ ".github/commands/" +:+ rest
              /\ path_relative templatesDir commandFile = ".github/commands/" +:+ rest)
    commandFiles.
Proof.
  unfold getFilesRecursively.
  destruct (commandsListing P) as [entries|e]; [|discriminate].
  intros Hc.
  assert (Hall : forall fileList files,
             fold_result (collectEntry commandsDir) entries fileList = Ok files ->
             exists more, files = fileList ++ more
                          /\ Forall (fun f => exists rest, f = commandsDir +:+ "/" +:+ rest)
                               more).
  { clear Hc. induction entries as [|entry entries IH]; intros fileList files Hc.
    - cbn in Hc. injection Hc as <-. exists []. rewrite app_nil_r. split; constructor.
    - cbn [fold_result] in Hc.
      destruct (collectEntry commandsDir entry fileList) as [acc|e] eqn:Hentry;
        [|discriminate].
      destruct (collectEntry_below entry _ _ _ Hentry) as (more1 & -> & Hmore1).
      destruct (IH _ _ Hc) as (more2 & -> & Hmore2).
      exists (more1 ++ more2). split; [symmetry; apply app_assoc|].
      apply Forall_app. split; assumption. }
  destruct (Hall [] commandFiles Hc) as (more & -> & Hmore).
  eapply Forall_impl; [exact Hmore|].
  intros f [rest ->]. exists rest.
  assert (Heq : commandsDir +:+ "/" +:+ rest
                = templatesDir +:+ "/" +:+ ".github/commands/" +:+ rest).
  { unfold commandsDir. rewrite !append_assoc. reflexivity. }
  split; [exact Heq|]. rewrite Heq. apply path_relative_below.
Qed.

(** ** A second run on a converged remote state *)

Lemma writes_app (t1 t2 : list Event) : writes (t1 ++ t2) = writes t1 ++ writes t2.
Proof. unfold writes, calls. rewrite omap_app, filter_app. reflexivity. Qed.

Lemma file_lines_app (t1 t2 : list Event) :
  file_lines (t1 ++ t2) = file_lines t1 ++ file_lines t2.
Proof. unfold file_lines, printed. rewrite omap_app, filter_app. reflexivity. Qed.

Lemma quiet_trace (t : list Event) :
  Forall quiet_event t -> writes t = [] /\ file_lines t = [].
Proof.
  induction 1 as [|ev t Hev _ [IHw IHl]]; [split; reflexivity|].
  change (ev :: t) with ([ev] ++ t). rewrite writes_app, file_lines_app, IHw, IHl.
  destruct ev as [r|l]; cbn in Hev.
  - split; [|reflexivity].
    change (writes [Call r]) with (filter is_write [r]).
    rewrite filter_cons_False; [reflexivity|].
    unfold is_write. intros H. apply bool_decide_unpack in H. contradiction.
  - split; [reflexivity|].
    change (file_lines [Print l]) with (filter is_file_line [l]).
    rewrite filter_cons_False; [reflexivity|]. rewrite Hev. exact id.
Qed.

Lemma setVariable_quiet owner repo variableName value (w : World P) :
  Forall quiet_event (trace_of (setVariable owner repo variableName value w)).
Proof. unfold setVariable. trace_steps; cbn; discriminate. Qed.

Lemma syncRunsOn_quiet owner repo repoConfig (w : World P) :
  Forall quiet_event (trace_of (syncRunsOn owner repo repoConfig w)).
Proof.
  unfold syncRunsOn. destruct (truthy (runsOn repoConfig)); [|constructor].
  trace_steps_with ltac:(apply setVariable_quiet).
Qed.

Section Idempotence.
Variable inv : World P -> Prop.

Lemma Settled_bind (m : Io P unit) (k : unit -> Io P unit) (w : World P) a1 a2 :
  Settled inv (m w) a1 ->
  (forall w', inv w' -> Settled inv (k tt w') a2) ->
  Settled inv (bind m k w) (a1 ++ a2).
Proof.
  intros (Hr & Hi & Hw & Hl) Hk. unfold bind.
  destruct (m w) as [[[[]|e] w1] t1]; [|discriminate].
  destruct (Hk w1 Hi) as (Hr2 & Hi2 & Hw2 & Hl2).
  destruct (k tt w1) as [[r2 w2] t2].
  unfold Settled. cbn [result_of world_of trace_of fst snd] in *.
  rewrite writes_app, file_lines_app, Hw, Hw2, Hl, Hl2, map_app. auto.
Qed.

Lemma Settled_for_of {A} (body : A -> Io P unit) (arts : A -> list (string * string))
    (xs : list A) (w : World P) :
  (forall x, x ∈ xs -> forall w', inv w' -> Settled inv (body x w') (arts x)) ->
  inv w ->
  Settled inv (for_of xs body w) (flat_map arts xs).
Proof.
  revert w. induction xs as [|x xs IH]; intros w Hbody Hinv.
  - repeat split. exact Hinv.
  - cbn [for_of flat_map]. apply Settled_bind.
    + apply Hbody; [apply list_elem_of_here|exact Hinv].
    + intros w' Hinv'. apply IH; [|exact Hinv'].
      intros y Hy. apply Hbody. apply list_elem_of_further, Hy.
Qed.

Lemma Settled_quiet (x : Result unit * World P * list Event) :
  result_of x = Ok tt -> inv (world_of x) -> Forall quiet_event (trace_of x) ->
  Settled inv x [].
Proof.
  intros Hr Hi Hq. destruct (quiet_trace _ Hq) as [Hw Hl]. repeat split; assumption.
Qed.

Lemma syncFile_settled repoConfig artifact (w : World P) :
  Converged inv repoConfig artifact ->
  inv w ->
  Settled inv (syncFile (repoOwner repoConfig) (repoName repoConfig) artifact.1
                 artifact.2 (repoBranch repoConfig) w) [artifact].
Proof.
  intros Hconv Hinv. destruct (Hconv w Hinv) as (existing & w1 & t1 & Hread & Hdec & Hinv1).
  rewrite (syncFile_up_to_date _ _ _ _ _ _ _ _ _ Hread Hdec).
  repeat split. exact Hinv1.
Qed.

Lemma syncCommand_loop_settled repoConfig commandFiles commands (w : World P) :
  Forall2 (fun commandFile artifact =>
             match readFile P commandFile with
             | Ok commandContent =>
                 Some (path_relative templatesDir commandFile, commandContent)
             | Throw _ => None
             end = Some artifact) commandFiles commands ->
  (forall a, a ∈ commands -> Converged inv repoConfig a) ->
  inv w ->
  Settled inv
    (for_of commandFiles
       (syncCommand (repoOwner repoConfig) (repoName repoConfig) (repoBranch repoConfig)) w)
    commands.
Proof.
  intros Hfiles. revert w. induction Hfiles as [|f a files arts Hf _ IH]; intros w Hconv Hinv.
  - repeat split. exact Hinv.
  - cbn [for_of]. change (a :: arts) with ([a] ++ arts). apply Settled_bind.
    + unfold syncCommand. unfold bind at 1. unfold lift at 1.
      destruct (readFile P f) as [c|e]; [|discriminate].
      injection Hf as <-.
      pose proof (syncFile_settled repoConfig (path_relative templatesDir f, c) w
                    (Hconv _ (list_elem_of_here _ _)) Hinv) as Hs.
      cbn [fst snd] in Hs.
      destruct (syncFile _ _ _ _ _ w) as [[r1 w1] t1]. exact Hs.
    + intros w' Hinv'. apply IH; [|exact Hinv'].
      intros b Hb. apply Hconv. apply list_elem_of_further, Hb.
Qed.

Lemma syncCommands_settled repoConfig commands (w : World P) :
  desiredCommands = Some commands ->
  (forall a, a ∈ commands -> Converged inv repoConfig a) ->
  inv w ->
  Settled inv
    (syncCommands (repoOwner repoConfig) (repoName repoConfig) (repoBranch repoConfig) w)
    commands.
Proof.
  unfold desiredCommands, syncCommands. intros Hdesired Hconv Hinv.
  unfold try_catch. unfold bind at 1. unfold lift at 1.
  destruct (getFilesRecursively commandsDir (commandsListing P) []) as [files|e].
  - apply mapM_Some in Hdesired.
    pose proof (syncCommand_loop_settled repoConfig files commands w Hdesired Hconv Hinv)
      as Hs.
    destruct Hs as (Hr & Hi & Hw & Hl).
    destruct (for_of files _ w) as [[[[]|e] w1] t1]; [|discriminate].
    repeat split; assumption.
  - destruct (includes "ENOENT" (message e)); [|discriminate].
    injection Hdesired as <-. repeat split. exact Hinv.
Qed.

Lemma syncWorkflow_settled repoConfig commands workflowName (w : World P) :
  desiredCommands = Some commands ->
  (exists templateContent, readFile P (templatePath workflowName) = Ok templateContent) ->
  (forall a, a ∈ desiredWorkflow commands workflowName -> Converged inv repoConfig a) ->
  inv w ->
  Settled inv
    (syncWorkflow (repoOwner repoConfig) (repoName repoConfig) (repoBranch repoConfig)
       workflowName w)
    (desiredWorkflow commands workflowName).
Proof.
  intros Hdesired [c Hc] Hconv Hinv.
  rewrite (syncWorkflow_readable _ _ _ _ _ _ Hc), try_catch_report.
  unfold desiredWorkflow in *. rewrite Hc in *.
  assert (Hs : Settled inv
            (bind (syncFile (repoOwner repoConfig) (repoName repoConfig)
                     (targetPath workflowName) c (repoBranch repoConfig))
                  (fun _ => syncCommands (repoOwner repoConfig) (repoName repoConfig)
                              (repoBranch repoConfig)) w)
            ([(targetPath workflowName, c)] ++ commands)).
  { apply Settled_bind.
    - apply (syncFile_settled repoConfig (targetPath workflowName, c) w); [|exact Hinv].
      apply Hconv, list_elem_of_here.
    - intros w' Hinv'. apply syncCommands_settled; [exact Hdesired| |exact Hinv'].
      intros a Ha. apply Hconv, list_elem_of_further, Ha. }
  destruct Hs as (Hr & Hs).
  destruct (bind _ _ w) as [[[[]|e] w1] t1]; [|discriminate].
  split; [reflexivity|exact Hs].
Qed.

Lemma syncRepository_settled repoConfig commands (w : World P) :
  desiredCommands = Some commands ->
  (forall workflowName, workflowName ∈ declaredWorkflows repoConfig ->
     exists templateContent, readFile P (templatePath workflowName) = Ok templateContent) ->
  (forall a, a ∈ desiredFiles commands repoConfig -> Converged inv repoConfig a) ->
  (forall value w', truthy (runsOn repoConfig) = Some value -> inv w' ->
     inv (world_of (setVariable (repoOwner repoConfig) (repoName repoConfig)
                      "RUNS_ON" value w'))) ->
  inv w ->
  Settled inv (syncRepository repoConfig w) (desiredFiles commands repoConfig).
Proof.
  intros Hdesired Htemplates Hconv Hvar Hinv.
  rewrite syncRepository_steps.
  set (xv := syncRunsOn (repoOwner repoConfig) (repoName repoConfig) repoConfig w).
  assert (Hinv1 : inv (world_of xv)).
  { subst xv. destruct (truthy (runsOn repoConfig)) as [value|] eqn:Htruthy.
    - rewrite (syncRunsOn_steps _ _ _ _ _ Htruthy). apply Hvar; [reflexivity|assumption].
    - unfold syncRunsOn. rewrite Htruthy. exact Hinv. }
  destruct (quiet_trace _ (syncRunsOn_quiet (repoOwner repoConfig) (repoName repoConfig)
                             repoConfig w)) as [Hwv Hlv].
  fold xv in Hwv, Hlv.
  pose proof (Settled_for_of
    (syncWorkflow (repoOwner repoConfig) (repoName repoConfig) (repoBranch repoConfig))
    (desiredWorkflow commands) (declaredWorkflows repoConfig) (world_of xv)) as Hloop.
  destruct Hloop as (Hr & Hi & Hw & Hl); [|exact Hinv1|].
  { intros wn Hwn w' Hinv'. apply syncWorkflow_settled; try assumption.
    - apply Htemplates, Hwn.
    - intros a Ha. apply Hconv. unfold desiredFiles.
      apply list_elem_of_In, in_flat_map. exists wn.
      split; apply list_elem_of_In; assumption. }
  unfold Settled. cbn [result_of world_of trace_of fst snd].
  change (?a :: ?t ++ ?u) with ([a] ++ t ++ u).
  rewrite !writes_app, !file_lines_app, Hwv, Hlv.
  fold (desiredFiles commands repoConfig) in Hl.
  destruct (declaredWorkflows repoConfig) as [|wn ws] eqn:Hws.
  - unfold desiredFiles. rewrite Hws. repeat split. exact Hi.
  - rewrite Hw, Hl. repeat split. exact Hi.
Qed.

(** C5. A run of the file reconciliation on a remote state that is already
    converged, and that nothing but a write of a file changes: when reading
    each desired artifact returns the desired content, [main] returns, issues
    no write of a file, and reports every file artifact, in order, as up to
    date and nothing else about files. *)
Theorem second_run_changes_nothing config commands (w : World P) :
  loadConfig = Ok config ->
  desiredCommands = Some commands ->
  (forall repoConfig workflowName,
     repoConfig ∈ declaredRepositories config ->
     workflowName ∈ declaredWorkflows repoConfig ->
     exists templateContent, readFile P (templatePath workflowName) = Ok templateContent) ->
  (forall repoConfig a,
     repoConfig ∈ declaredRepositories config ->
     a ∈ desiredFiles commands repoConfig ->
     Converged inv repoConfig a) ->
  (forall repoConfig value w',
     repoConfig ∈ declaredRepositories config ->
     truthy (runsOn repoConfig) = Some value ->
     inv w' ->
     inv (world_of (setVariable (repoOwner repoConfig) (repoName repoConfig)
                      "RUNS_ON" value w'))) ->
  inv w ->
  result_of (main w) = Ok tt
  /\ writes (trace_of (main w)) = []
  /\ file_lines (trace_of (main w))
     = map (fun a => LogUpToDate a.1)
         (flat_map (desiredFiles commands) (declaredRepositories config)).
Proof.
  intros Hload Hdesired Htemplates Hconv Hvar Hinv.
  unfold declaredRepositories in *.
  destruct (repositories config) as [[|rc repos]|] eqn:Hrepos.
  - rewrite (main_no_repositories config w Hload (or_intror Hrepos)). repeat split.
  - rewrite (main_steps config (rc :: repos) w Hload Hrepos ltac:(discriminate)).
    cbn [default from_option id] in *.
    destruct (Settled_for_of syncRepository (desiredFiles commands) (rc :: repos) w)
      as (Hr & Hi & Hw & Hl); [|exact Hinv|].
    { intros x Hx w' Hinv'. apply syncRepository_settled; try assumption.
      - intros wn Hwn. apply (Htemplates x wn Hx Hwn).
      - intros a Ha. apply (Hconv x a Hx Ha).
      - intros value w'' Ht Hi. apply (Hvar x value w'' Hx Ht Hi). }
    cbn [result_of trace_of fst snd].
    change (?a :: ?t ++ ?u) with ([a] ++ t ++ u).
    rewrite !writes_app, !file_lines_app, Hw, Hl. repeat split.
    apply app_nil_r.
  - rewrite (main_no_repositories config w Hload (or_introl Hrepos)). repeat split.
Qed.
End Idempotence.
(** ** More on [getFilesRecursively] *)

Lemma DirEntry_tree_ind (Q : DirEntry -> Prop) :
  (forall entry_name, Q (EFile entry_name)) ->
  (forall entry_name e, Q (EDir entry_name (Throw e))) ->
  (forall entry_name entries, Forall Q entries -> Q (EDir entry_name (Ok entries))) ->
  forall file, Q file.
Proof.
  intros Hfile Hthrow Hdir. fix IH 1. intros [n|n [entries|e]].
  - apply Hfile.
  - apply Hdir. induction entries as [|entry entries IHentries]; constructor.
    + apply IH.
    + exact IHentries.
  - apply Hthrow.
Qed.

Lemma fold_collect_listable dir entries :
  Forall (fun file => forall dir fileList,
            listable file = true ->
            collectEntry dir file fileList = Ok (fileList ++ filesBelow dir file)) entries ->
  forall fileList,
    forallb listable entries = true ->
    fold_result (collectEntry dir) entries fileList
    = Ok (fileList ++ flat_map (filesBelow dir) entries).
Proof.
  induction 1 as [|entry entries Hentry _ IH]; intros fileList Hall.
  - cbn. rewrite app_nil_r. reflexivity.
  - cbn [forallb] in Hall. apply andb_prop in Hall as [H1 H2].
    cbn [fold_result flat_map]. rewrite (Hentry dir fileList H1), (IH _ H2).
    rewrite app_assoc. reflexivity.
Qed.

Lemma collectEntry_listable file :
  forall dir fileList,
    listable file = true ->
    collectEntry dir file fileList = Ok (fileList ++ filesBelow dir file).
Proof.
  induction file as [n|n e|n entries IH] using DirEntry_tree_ind;
    intros dir fileList Hl.
  - reflexivity.
  - discriminate.
  - cbn [collectEntry filesBelow listable] in *.
    apply fold_collect_listable; assumption.
Qed.

Lemma fold_collect_unlistable dir entries :
  Forall (fun file => forall dir fileList,
            listable file = false ->
            exists e, collectEntry dir file fileList = Throw e) entries ->
  forall fileList,
    forallb listable entries = false ->
    exists e, fold_result (collectEntry dir) entries fileList = Throw e.
Proof.
  induction 1 as [|entry entries Hentry _ IH]; intros fileList Hall.
  - discriminate.
  - cbn [forallb] in Hall. cbn [fold_result].
    destruct (listable entry) eqn:Hl.
    + rewrite (collectEntry_listable entry dir fileList Hl). apply IH. exact Hall.
    + destruct (Hentry dir fileList eq_refl) as [e ->]. exists e. reflexivity.
Qed.

Lemma collectEntry_unlistable file :
  forall dir fileList,
    listable file = false ->
    exists e, collectEntry dir file fileList = Throw e.
Proof.
  induction file as [n|n e|n entries IH] using DirEntry_tree_ind;
    intros dir fileList Hl.
  - discriminate.
  - exists e. reflexivity.
  - cbn [collectEntry listable] in *.
    apply fold_collect_unlistable; assumption.
Qed.

(** X1. When every directory of the tree can be listed, [getFilesRecursively]
    returns the list it was given followed by the path of every file of the
    tree, each directory's files in the order of its listing and in place of
    the directory; directories themselves are not listed. *)
Theorem getFilesRecursively_lists_every_file dir entries fileList :
  forallb listable entries = true ->
  getFilesRecursively dir (Ok entries) fileList
  = Ok (fileList ++ flat_map (filesBelow dir) entries).
Proof.
  intros Hall. unfold getFilesRecursively.
  apply fold_collect_listable; [|exact Hall].
  apply Forall_forall. intros file _ dir' fileList'. apply collectEntry_listable.
Qed.

(** X2. [getFilesRecursively] returns a list exactly when the directory and
    every directory below it can be listed; when one cannot, the call throws
    and no partial list is returned. *)
Theorem getFilesRecursively_throws_iff_unlistable dir listing fileList :
  (exists files, getFilesRecursively dir listing fileList = Ok files)
  <-> exists entries, listing = Ok entries /\ forallb listable entries = true.
Proof.
  split.
  - intros [files Hfiles]. destruct listing as [entries|e]; [|discriminate].
    exists entries. split; [reflexivity|].
    destruct (forallb listable entries) eqn:Hall; [reflexivity|].
    unfold getFilesRecursively in Hfiles.
    destruct (fold_collect_unlistable dir entries) with (fileList := fileList)
      as [e He]; [|exact Hall|congruence].
    apply Forall_forall. intros file _ dir' fileList'. apply collectEntry_unlistable.
  - intros (entries & -> & Hall). eexists. unfold getFilesRecursively.
    apply fold_collect_listable; [|exact Hall].
    apply Forall_forall. intros file _ dir' fileList'. apply collectEntry_listable.
Qed.
(** ** Where the auxiliary files go, and when their directory is missing *)

Lemma append_empty_r (s : string) : s +:+ "" = s.
Proof.
  induction s as [|c s IH]; [reflexivity|].
  change (String c (s +:+ "") = String c s). f_equal. exact IH.
Qed.

(** The requests of [syncFile] are for the path it is given. *)
Lemma syncFile_path_events owner repo filePath content branch (w : World P) :
  Forall (fun ev => match ev with
                    | Call r => exists suffix,
                        url r = GITHUB_API +:+ contentsEndpoint owner repo
                                                 (filePath +:+ suffix)
                    | Print _ => True
                    end)
    (trace_of (syncFile owner repo filePath content branch w)).
Proof.
  unfold syncFile. trace_steps; cbn.
  - exists ("?ref=" +:+ branch). rewrite contentsEndpoint_app. reflexivity.
  - exists "". rewrite append_empty_r. reflexivity.
  - exists "". rewrite append_empty_r. reflexivity.
Qed.

Lemma for_of_Forall_in {A} (Q : Event -> Prop) (body : A -> Io P unit)
    (xs : list A) (w : World P) :
  (forall x w', x ∈ xs -> Forall Q (trace_of (body x w'))) ->
  Forall Q (trace_of (for_of xs body w)).
Proof.
  revert w. induction xs as [|x xs IH]; intros w Hbody.
  - constructor.
  - cbn [for_of]. apply bind_Forall.
    + intros w'. apply Hbody, list_elem_of_here.
    + intros _ w'. apply IH. intros y w'' Hy. apply Hbody, list_elem_of_further, Hy.
Qed.

(** X3. Every request of [syncCommands] is for a path below
    [.github/commands] of the target repository: the auxiliary files keep
    their place relative to [templates]. *)
Theorem syncCommands_stays_below_commands owner repo branch (w : World P) :
  Forall (command_event owner repo) (trace_of (syncCommands owner repo branch w)).
Proof.
  unfold syncCommands. apply try_catch_Forall.
  - intros w'. unfold bind at 1. unfold lift at 1.
    destruct (getFilesRecursively commandsDir (commandsListing P) [])
      as [commandFiles|e] eqn:Hfiles; [|constructor].
    pose proof (getFilesRecursively_below commandFiles Hfiles) as Hbelow.
    rewrite Forall_forall in Hbelow.
    pose proof (for_of_Forall_in (command_event owner repo)
                  (syncCommand owner repo branch) commandFiles w') as Hloop.
    destruct (for_of commandFiles _ w') as [[r1 w1] t1].
    cbn [trace_of snd app] in *. apply Hloop.
    intros f w'' Hf. destruct (Hbelow f Hf) as (rest & _ & Hrel).
    unfold syncCommand. rewrite Hrel. unfold bind at 1. unfold lift at 1.
    destruct (readFile P f) as [c|e]; [|constructor].
    pose proof (syncFile_path_events owner repo (".github/commands/" +:+ rest) c
                  branch w'') as Hsync.
    destruct (syncFile _ _ _ _ _ w'') as [[r2 w2] t2].
    cbn [trace_of snd app] in *.
    eapply Forall_impl; [exact Hsync|].
    intros [r|l]; [|exact id]. intros [suffix Hurl].
    exists (rest +:+ suffix). rewrite Hurl, append_assoc. reflexivity.
  - intros e w'. destruct (negb _); constructor.
Qed.

(** X4. When the directory [templates/.github/commands] does not exist (its
    listing throws an error whose message shows ENOENT), [syncCommands]
    returns without a request and without a line, and the requests of the
    workflow are those of its template file alone. *)
Theorem missing_commands_directory_is_ignored
    owner repo branch workflowName templateContent e (w : World P) :
  commandsListing P = Throw e ->
  includes "ENOENT" (message e) = true ->
  readFile P (templatePath workflowName) = Ok templateContent ->
  syncCommands owner repo branch w = (Ok tt, w, [])
  /\ calls (trace_of (syncWorkflow owner repo branch workflowName w))
     = calls (trace_of (syncFile owner repo (targetPath workflowName)
                          templateContent branch w)).
Proof.
  intros Hlisting Henoent Htemplate.
  assert (Hcommands : forall w', syncCommands owner repo branch w' = (Ok tt, w', [])).
  { intros w'. unfold syncCommands, try_catch. unfold bind at 1. unfold lift at 1.
    unfold getFilesRecursively. rewrite Hlisting. cbn [message].
    rewrite Henoent. reflexivity. }
  split; [apply Hcommands|].
  rewrite (syncWorkflow_readable _ _ _ _ _ _ Htemplate), try_catch_report.
  unfold bind.
  destruct (syncFile _ _ _ _ _ w) as [[[[]|e'] w1] t1].
  - rewrite Hcommands. cbn [trace_of snd]. rewrite app_nil_r. reflexivity.
  - cbn [trace_of snd]. unfold calls. rewrite omap_app. cbn. apply app_nil_r.
Qed.
(** X5. An error thrown while an auxiliary file is reconciled is dropped
    when its message shows ENOENT, whatever threw it: [syncCommands] returns
    normally there, the auxiliary files after it are not tried, and the
    workflow, whose template file was reconciled, prints no error line. *)
Theorem error_showing_ENOENT_is_dropped
    owner repo branch workflowName templateContent before commandFile after
    (w w0 w1 w2 : World P) t0 t1 e t2 :
  readFile P (templatePath workflowName) = Ok templateContent ->
  syncFile owner repo (targetPath workflowName) templateContent branch w
  = (Ok tt, w0, t0) ->
  getFilesRecursively commandsDir (commandsListing P) []
  = Ok (before ++ commandFile :: after) ->
  for_of before (syncCommand owner repo branch) w0 = (Ok tt, w1, t1) ->
  syncCommand owner repo branch commandFile w1 = (Throw e, w2, t2) ->
  includes "ENOENT" (message e) = true ->
  syncCommands owner repo branch w0 = (Ok tt, w2, t1 ++ t2)
  /\ syncWorkflow owner repo branch workflowName w = (Ok tt, w2, t0 ++ t1 ++ t2).
Proof.
  intros Htemplate Hsync Hfiles Hbefore Hfile Henoent.
  assert (Hcommands : syncCommands owner repo branch w0 = (Ok tt, w2, t1 ++ t2)).
  { unfold syncCommands, try_catch. unfold bind at 1. unfold lift at 1.
    rewrite Hfiles, (for_of_stops _ _ _ _ _ _ _ _ _ _ Hbefore Hfile).
    cbn [message]. rewrite Henoent. cbn. rewrite app_nil_r. reflexivity. }
  split; [exact Hcommands|].
  rewrite (syncWorkflow_readable _ _ _ _ _ _ Htemplate), try_catch_report.
  unfold bind. rewrite Hsync, Hcommands. reflexivity.
Qed.

(** X6. A workflow issues a request exactly when its template can be read
    locally: when [fs.readFile] throws, the error is printed under the
    workflow, the world is left as it was and nothing is requested. *)
Theorem workflow_requests_iff_template_readable
    owner repo branch workflowName (w : World P) :
  (calls (trace_of (syncWorkflow owner repo branch workflowName w)) = []
   <-> exists e, readFile P (templatePath workflowName) = Throw e)
  /\ forall e, readFile P (templatePath workflowName) = Throw e ->
       syncWorkflow owner repo branch workflowName w
       = (Ok tt, w, [Print (LogWorkflowError workflowName (message e))]).
Proof.
  assert (Hthrown : forall e, readFile P (templatePath workflowName) = Throw e ->
            syncWorkflow owner repo branch workflowName w
            = (Ok tt, w, [Print (LogWorkflowError workflowName (message e))])).
  { intros e He. unfold syncWorkflow, templatePath in *.
    unfold try_catch. unfold bind at 1. unfold lift at 1. rewrite He. reflexivity. }
  split; [|exact Hthrown]. split.
  - intros Hcalls. destruct (readFile P (templatePath workflowName)) as [c|e] eqn:Hc;
      [|exists e; reflexivity].
    exfalso. rewrite (syncWorkflow_readable _ _ _ _ _ _ Hc), try_catch_report in Hcalls.
    destruct (syncFile_trace_head owner repo (targetPath workflowName) c branch w)
      as [rest Hhead].
    unfold bind in Hcalls.
    destruct (syncFile _ _ _ _ _ w) as [[[[]|e] w1] t1]; cbn [trace_of snd] in Hhead;
      subst t1.
    + destruct (syncCommands _ _ _ w1) as [[[[]|e] w2] t2]; discriminate.
    + discriminate.
  - intros [e He]. rewrite (Hthrown e He). reflexivity.
Qed.

(** ** The run as a whole *)








Lemma syncRepository_repository_events repoConfig (w : World P) :
  Forall (repository_event repoConfig) (trace_of (syncRepository repoConfig w)).
Proof.
  rewrite syncRepository_steps. cbn [trace_of snd].
  constructor; [left; exact I|]. apply Forall_app. split.
  - eapply Forall_impl; [|intros ev Hev; right; exact Hev].
    unfold syncRunsOn. destruct (truthy (runsOn repoConfig)); [|constructor].
    trace_steps_with ltac:(apply setVariable_variable_events).
  - destruct (declaredWorkflows repoConfig) as [|wn ws] eqn:Hws.
    + repeat constructor.
    + eapply Forall_impl; [|intros ev Hev; left; exact Hev].
      apply for_of_Forall. intros x w'. apply syncWorkflow_file_events.
Qed.

(** X9. Every request of a run of [main] is a request for a file or for
    the variables of a repository declared in the configuration: nothing else
    is ever contacted. *)
Theorem only_declared_repositories_are_contacted config (w : World P) r :
  loadConfig = Ok config ->
  Call r ∈ trace_of (main w) ->
  exists repoConfig,
    repoConfig ∈ declaredRepositories config
    /\ repository_event repoConfig (Call r).
Proof.
  intros Hload Hin. unfold declaredRepositories.
  destruct (repositories config) as [[|rc repos]|] eqn:Hrepos.
  - rewrite (main_no_repositories config w Hload (or_intror Hrepos)) in Hin.
    cbn in Hin. repeat (apply elem_of_cons in Hin as [Hin|Hin]; [discriminate|]).
    inversion Hin.
  - rewrite (main_steps config (rc :: repos) w Hload Hrepos ltac:(discriminate)) in Hin.
    cbn [trace_of snd default from_option id] in *.
    apply elem_of_cons in Hin as [Hin|Hin]; [discriminate|].
    apply elem_of_app in Hin as [Hin|Hin].
    2:{ apply list_elem_of_singleton in Hin. discriminate. }
    pose proof (for_of_Forall_in
      (fun ev => match ev with
                 | Call _ => exists repoConfig,
                     repoConfig ∈ rc :: repos /\ repository_event repoConfig ev
                 | Print _ => True
                 end) syncRepository (rc :: repos) w) as Hall.
    rewrite Forall_forall in Hall. apply (Hall) in Hin; [exact Hin|].
    intros x w' Hx. eapply Forall_impl; [apply syncRepository_repository_events|].
    intros [r'|l] Hev; [|exact I]. exists x. split; assumption.
  - rewrite (main_no_repositories config w Hload (or_introl Hrepos)) in Hin.
    cbn in Hin. repeat (apply elem_of_cons in Hin as [Hin|Hin]; [discriminate|]).
    inversion Hin.
Qed.
(** ** More on [syncFile] and [setVariable] *)


Lemma createRun_reports owner repo filePath content branch (w : World P) pre :
  let x := createRun owner repo filePath content branch w in
  (result_of x = Ok tt /\ printed (pre ++ trace_of x) = printed pre ++ [LogCreated filePath])
  \/ (exists e, result_of x = Throw e /\ printed (pre ++ trace_of x) = printed pre).
Proof.
  unfold createRun, printed.
  destruct (githubRequest _ PUT _ w) as [[[j|e] w'] t]; cbn zeta; rewrite omap_app.
  - left. split; reflexivity.
  - right. exists e. split; [reflexivity|]. cbn. apply app_nil_r.
Qed.

(** X11. [syncFile] reports exactly one outcome: when it returns it has
    printed one line, which says of the file that it is up to date, updated or
    created, and when it throws it has printed nothing. *)
Theorem syncFile_reports_once owner repo filePath content branch (w : World P) :
  let x := syncFile owner repo filePath content branch w in
  (result_of x = Ok tt
   /\ exists l, printed (trace_of x) = [l]
                /\ l ∈ [LogUpToDate filePath; LogUpdated filePath; LogCreated filePath])
  \/ (exists e, result_of x = Throw e /\ printed (trace_of x) = []).
Proof.
  cbn zeta.
  destruct (readFileState owner repo filePath branch w) as [[[existing|e] w1] t1] eqn:Hread.
  - destruct (prop existing "content") as [b64|] eqn:Hcontent.
    2:{ rewrite (syncFile_no_content _ _ _ _ _ _ _ _ _ Hread Hcontent).
        right. eexists. split; reflexivity. }
    assert (Hdec : decodeContent (prop existing "content")
                   = Ok (Buffer_from_base64 P b64)) by (rewrite Hcontent; reflexivity).
    destruct (decide (Buffer_from_base64 P b64 = content)) as [Heq|Hne].
    { rewrite Heq in Hdec.
      rewrite (syncFile_up_to_date _ _ _ _ _ _ _ _ _ Hread Hdec).
      left. split; [reflexivity|]. eexists. split; [reflexivity|].
      apply list_elem_of_here. }
    destruct (githubRequest (contentsEndpoint owner repo filePath) PUT
                (Some (updateBody filePath content (prop existing "sha") branch)) w1)
      as [[[j|e] w2] t2] eqn:Hput.
    + rewrite (syncFile_updated _ _ _ _ _ _ _ _ _ _ _ _ _ Hread Hdec Hne Hput).
      left. split; [reflexivity|]. eexists. split; [reflexivity|].
      apply list_elem_of_further, list_elem_of_here.
    + rewrite (syncFile_update_thrown _ _ _ _ _ _ _ _ _ _ _ _ _ Hread Hdec Hne Hput).
      destruct (includes "404" (message e)).
      * cbn [trace_of result_of fst snd].
        destruct (createRun_reports owner repo filePath content branch w2
                    [Call (readRequest owner repo filePath branch);
                     Call (updateRequest owner repo filePath content
                             (prop existing "sha") branch)])
          as [[Hr Hp]|(e' & Hr & Hp)].
        -- left. split; [exact Hr|]. eexists. split; [exact Hp|].
           do 2 apply list_elem_of_further. apply list_elem_of_here.
        -- right. exists e'. split; [exact Hr|exact Hp].
      * right. eexists. split; reflexivity.
  - rewrite (syncFile_read_thrown _ _ _ _ _ _ _ _ _ Hread).
    destruct (includes "404" (message e)).
    + cbn [trace_of result_of fst snd].
      destruct (createRun_reports owner repo filePath content branch w1
                  [Call (readRequest owner repo filePath branch)])
        as [[Hr Hp]|(e' & Hr & Hp)].
      * left. split; [exact Hr|]. eexists. split; [exact Hp|].
        do 2 apply list_elem_of_further. apply list_elem_of_here.
      * right. exists e'. split; [exact Hr|exact Hp].
    + right. eexists. split; reflexivity.
Qed.
Lemma githubRequest_without_body endpoint meth payload (w w1 : World P) response :
  fetch P (mkRequest (GITHUB_API +:+ endpoint) meth payload) w = (Ok response, w1) ->
  ok response = true ->
  status response = 204%N \/ content_length response = Some "0" \/ text response = "" ->
  githubRequest endpoint meth payload w
  = (Ok [], w1, [Call (mkRequest (GITHUB_API +:+ endpoint) meth payload)]).
Proof.
  intros Hfetch Hok Hempty. unfold githubRequest, bind, do_fetch.
  rewrite Hfetch, Hok. cbn [negb].
  destruct ((status response =? 204)%N || bool_decide (content_length response = Some "0"))
    eqn:Hfirst; [reflexivity|].
  apply orb_false_elim in Hfirst as [Hs Hl].
  destruct Hempty as [H204|[Hlen|Htext]].
  - rewrite H204 in Hs. discriminate.
  - rewrite bool_decide_eq_false in Hl. contradiction.
  - rewrite (bool_decide_eq_true_2 _ Htext). reflexivity.
Qed.

(** X12. A read that is answered with success but without a body (status
    204, a content length of 0, or an empty text) gives [syncFile] an object
    without content: it throws the [TypeError] of [Buffer.from], issues no
    write and prints nothing. *)
Theorem syncFile_read_without_body_fails
    owner repo filePath content branch (w w1 : World P) response :
  fetch P (readRequest owner repo filePath branch) w = (Ok response, w1) ->
  ok response = true ->
  status response = 204%N \/ content_length response = Some "0" \/ text response = "" ->
  syncFile owner repo filePath content branch w
  = (Throw Buffer_from_TypeError, w1, [Call (readRequest owner repo filePath branch)]).
Proof.
  intros Hfetch Hok Hempty.
  pose proof (githubRequest_without_body _ GET None w w1 response Hfetch Hok Hempty)
    as Hread.
  apply (syncFile_no_content owner repo filePath content branch w w1 [] _ Hread).
  reflexivity.
Qed.

(** X13. [syncFile] recognises what it wrote: when decoding undoes encoding
    on the desired content and the read returns, as content, what the create
    and update writes send for it, the file is reported as up to date and no
    write is issued. *)
Theorem syncFile_recognises_its_own_write
    owner repo filePath content branch (w w1 : World P) existing t1 :
  Buffer_from_base64 P (Buffer_to_base64 P content) = content ->
  readFileState owner repo filePath branch w = (Ok existing, w1, t1) ->
  prop existing "content" = prop (createBody filePath content branch) "content" ->
  prop (createBody filePath content branch) "content"
  = prop (updateBody filePath content (prop existing "sha") branch) "content"
  /\ syncFile owner repo filePath content branch w
     = (Ok tt, w1, [Call (readRequest owner repo filePath branch);
                    Print (LogUpToDate filePath)]).
Proof.
  intros Hround Hread Hcontent. split; [reflexivity|].
  apply (syncFile_up_to_date _ _ _ _ _ _ _ _ _ Hread).
  rewrite Hcontent. cbn. unfold encodeBase64. rewrite Hround. reflexivity.
Qed.

(** X14. [setVariable] issues between one and three requests and prints
    nothing: the read, then at most one update call, then at most one create
    call; no request is retried. *)
Theorem setVariable_requests_are_bounded owner repo variableName value (w : World P) :
  let x := setVariable owner repo variableName value w in
  let read := variableRead owner repo variableName in
  let update := variableUpdate owner repo variableName value in
  let create := variableCreate owner repo variableName value in
  calls (trace_of x) ∈ [[read]; [read; update]; [read; create]; [read; update; create]]
  /\ printed (trace_of x) = [].
Proof.
  cbn zeta.
  destruct (readVariable owner repo variableName w) as [[[j|e] w1] t1] eqn:Hread.
  - destruct (patchVariable owner repo variableName value w1)
      as [[[j2|e2] w2] t2] eqn:Hpatch.
    + rewrite (setVariable_present _ _ _ _ _ _ _ _ _ _ _ Hread Hpatch).
      split; [|reflexivity]. apply list_elem_of_further, list_elem_of_here.
    + rewrite (setVariable_update_thrown _ _ _ _ _ _ _ _ _ _ _ Hread Hpatch).
      destruct (includes "404" (message e2)); (split; [|reflexivity]).
      * do 3 apply list_elem_of_further. apply list_elem_of_here.
      * apply list_elem_of_further, list_elem_of_here.
  - rewrite (setVariable_read_thrown _ _ _ _ _ _ _ _ Hread).
    destruct (includes "404" (message e)); (split; [|reflexivity]).
    + do 2 apply list_elem_of_further. apply list_elem_of_here.
    + apply list_elem_of_here.
Qed.

(** ** Owner and repository of an entry *)

Lemma split_on_slash_free (s : string) :
  slash_free s = true -> split_on "/"%char s = [s].
Proof.
  induction s as [|c s IH]; [reflexivity|].
  unfold slash_free. cbn [list_ascii_of_string forallb split_on].
  intros H. apply andb_prop in H as [Hc Hs].
  apply negb_true_iff in Hc. rewrite Hc, (IH Hs). reflexivity.
Qed.

Lemma split_on_segment (s rest : string) :
  slash_free s = true ->
  split_on "/"%char (s +:+ "/" +:+ rest) = s :: split_on "/"%char rest.
Proof.
  induction s as [|c s IH]; [reflexivity|].
  unfold slash_free. cbn [list_ascii_of_string forallb].
  intros H. apply andb_prop in H as [Hc Hs]. apply negb_true_iff in Hc.
  change (String c s +:+ "/" +:+ rest) with (String c (s +:+ "/" +:+ rest)).
  cbn [split_on]. rewrite Hc, (IH Hs). reflexivity.
Qed.

(** X15. The owner of an entry is what its name has before the first
    slash and the repository what it has between the first and the second;
    what follows a second slash is ignored, and for a name without a slash the
    requests go to the repository called [undefined] of that owner. *)
Theorem owner_and_repository_of_a_name repoConfig owner :
  slash_free owner = true ->
  (name repoConfig = owner ->
   repoOwner repoConfig = owner /\ repoName repoConfig = "undefined")
  /\ (forall repo rest,
        slash_free repo = true ->
        name repoConfig = owner +:+ "/" +:+ repo
        \/ name repoConfig = owner +:+ "/" +:+ repo +:+ "/" +:+ rest ->
        repoOwner repoConfig = owner /\ repoName repoConfig = repo).
Proof.
  intros Howner. unfold repoOwner, repoName. split.
  - intros ->. rewrite (split_on_slash_free owner Howner). split; reflexivity.
  - intros repo rest Hrepo [-> | ->]; rewrite (split_on_segment owner _ Howner).
    + rewrite (split_on_slash_free repo Hrepo). split; reflexivity.
    + rewrite (split_on_segment repo _ Hrepo). split; reflexivity.
Qed.
End SyncFacts.

(** * Properties of set-secrets.ts *)

Section SecretFacts.
Context {P : Platform}.
Import SetSecrets.

Lemma secrets_githubRequest_trace endpoint meth payload (w : World P) :
  trace_of (githubRequest endpoint meth payload w)
  = [Call (mkRequest (GITHUB_API +:+ endpoint) meth payload)].
Proof.
  unfold githubRequest, bind, do_fetch, trace_of.
  destruct (fetch P _ w) as [[response|e] w1]; simpl; [|reflexivity].
  destruct (negb (ok response)); simpl; [reflexivity|].
  destruct (_ || _); simpl; [reflexivity|].
  destruct (bool_decide _); simpl; [reflexivity|].
  unfold lift. destruct (JSON_parse P (text response)); reflexivity.
Qed.

Lemma secrets_githubRequest_eq endpoint meth payload (w : World P) r w1 t :
  githubRequest endpoint meth payload w = (r, w1, t) ->
  t = [Call (mkRequest (GITHUB_API +:+ endpoint) meth payload)].
Proof.
  intros H. rewrite <- (secrets_githubRequest_trace endpoint meth payload w), H.
  reflexivity.
Qed.

(** [encryptSecret] issues no request. *)
Lemma encryptSecret_trace publicKey secretValue (w : World P) :
  trace_of (encryptSecret publicKey secretValue w) = [].
Proof.
  unfold encryptSecret, bind, lift, do_seal, ret.
  destruct (nacl_decodeBase64 P publicKey) as [keyBytes|e]; [|reflexivity].
  destruct (seal P _ keyBytes w) as [[sealed|e] w1]; reflexivity.
Qed.


(** [setSecret], by what its steps return. *)
Lemma setSecret_run owner repo secretName secretValue (w : World P) :
  setSecret owner repo secretName secretValue w
  = match getPublicKey owner repo w with
    | (Ok (Some publicKey), w1, _) =>
        match encryptSecret (prop publicKey "key") secretValue w1 with
        | (Ok encryptedValue, w2, _) =>
            let write := secretWrite owner repo secretName encryptedValue
                           (prop publicKey "key_id") in
            match fetch P write w2 with
            | (_, w3) =>
                (match result_of
                         (githubRequest
                            ("/repos/" +:+ owner +:+ "/" +:+ repo +:+ "/actions/secrets/"
                             +:+ secretName) PUT (body write) w2) with
                 | Ok _ => Ok tt
                 | Throw e => Throw e
                 end, w3, [Call (publicKeyRequest owner repo); Call write])
            end
        | (Throw e, w2, _) => (Throw e, w2, [Call (publicKeyRequest owner repo)])
        end
    | (Ok None, w1, _) =>
        (Throw (null_TypeError "key"), w1, [Call (publicKeyRequest owner repo)])
    | (Throw e, w1, _) => (Throw e, w1, [Call (publicKeyRequest owner repo)])
    end.
Proof.
  unfold setSecret. unfold bind at 1.
  destruct (getPublicKey owner repo w) as [[[[publicKey|]|e] w1] t1] eqn:Hkey;
    pose proof (secrets_githubRequest_eq _ _ _ _ _ _ _ Hkey) as Ht1; subst t1;
    try reflexivity.
  unfold bind at 1.
  pose proof (encryptSecret_trace (prop publicKey "key") secretValue w1) as Henc.
  destruct (encryptSecret (prop publicKey "key") secretValue w1)
    as [[[encryptedValue|e] w2] t2] eqn:Hencrypt; cbn [trace_of snd] in Henc; subst t2;
    [|reflexivity].
  cbn zeta. unfold bind at 1.
  change (body (secretWrite owner repo secretName encryptedValue (prop publicKey "key_id")))
    with (Some (secretBody encryptedValue (prop publicKey "key_id"))).
  unfold githubRequest at 1 2. unfold bind at 1 3. unfold do_fetch.
  change (mkRequest _ PUT _)
    with (secretWrite owner repo secretName encryptedValue (prop publicKey "key_id")).
  destruct (fetch P _ w2) as [[response|e] w3]; [|reflexivity].
  destruct (negb (ok response)); [reflexivity|].
  destruct (_ || _); [reflexivity|].
  destruct (bool_decide _); [reflexivity|].
  unfold bind, lift. destruct (JSON_parse P (text response)); reflexivity.
Qed.

(** ** More on [setSecret] *)



Lemma secrets_githubRequest_null endpoint meth payload (w w1 : World P) response :
  fetch P (mkRequest (GITHUB_API +:+ endpoint) meth payload) w = (Ok response, w1) ->
  ok response = true ->
  status response = 204%N
  \/ content_type response = None
  \/ (exists contentType, content_type response = Some contentType
                          /\ includes "application/json" contentType = false)
  \/ text response = "" ->
  githubRequest endpoint meth payload w
  = (Ok None, w1, [Call (mkRequest (GITHUB_API +:+ endpoint) meth payload)]).
Proof.
  intros Hfetch Hok Hnull. unfold githubRequest, bind, do_fetch.
  rewrite Hfetch, Hok. cbn [negb].
  destruct ((status response =? 204)%N || _) eqn:Hfirst; [reflexivity|].
  apply orb_false_elim in Hfirst as [Hs Ht]. apply negb_false_iff in Ht.
  destruct Hnull as [H204|[Hnone|[(ct & Hct & Hinc)|Htext]]].
  - rewrite H204 in Hs. discriminate.
  - rewrite Hnone in Ht. discriminate.
  - rewrite Hct, Hinc in Ht. discriminate.
  - rewrite (bool_decide_eq_true_2 _ Htext). reflexivity.
Qed.

(** X17. When the fetch of the public key is answered with success but
    without a JSON body (status 204, no content type or one that does not name
    [application/json], or an empty text), [setSecret] has [null] for the key:
    it throws the [TypeError] of reading [key] of [null] and issues no write. *)
Theorem setSecret_without_public_key_fails
    owner repo secretName secretValue (w w1 : World P) response :
  fetch P (publicKeyRequest owner repo) w = (Ok response, w1) ->
  ok response = true ->
  status response = 204%N
  \/ content_type response = None
  \/ (exists contentType, content_type response = Some contentType
                          /\ includes "application/json" contentType = false)
  \/ text response = "" ->
  setSecret owner repo secretName secretValue w
  = (Throw (null_TypeError "key"), w1, [Call (publicKeyRequest owner repo)]).
Proof.
  intros Hfetch Hok Hnull.
  pose proof (secrets_githubRequest_null _ GET None w w1 response Hfetch Hok Hnull) as Hkey.
  rewrite setSecret_run. unfold getPublicKey. rewrite Hkey. reflexivity.
Qed.

(** ** The run over the repositories *)

Lemma setSecret_shapes owner repo secretName secretValue (w : World P) :
  trace_of (setSecret owner repo secretName secretValue w)
  = [Call (publicKeyRequest owner repo)]
  \/ exists encryptedValue key_id,
       trace_of (setSecret owner repo secretName secretValue w)
       = [Call (publicKeyRequest owner repo);
          Call (secretWrite owner repo secretName encryptedValue key_id)].
Proof.
  rewrite setSecret_run.
  destruct (getPublicKey owner repo w) as [[[[publicKey|]|e] w1] t1];
    [|left; reflexivity|left; reflexivity].
  destruct (encryptSecret _ secretValue w1) as [[[encryptedValue|e] w2] t2];
    [|left; reflexivity].
  cbn zeta. destruct (fetch P _ w2) as [r3 w3]. right. eexists _, _. reflexivity.
Qed.

Lemma secretRepository_steps GEMINI_API_KEY repoConfig (w : World P) :
  let xs := setSecret (repoOwner repoConfig) (repoName repoConfig) "GEMINI_API_KEY"
              GEMINI_API_KEY w in
  secretRepository GEMINI_API_KEY repoConfig w
  = (Ok tt, world_of xs,
     Print (LogRepository (name repoConfig)) :: trace_of xs
     ++ [Print (match result_of xs with
                | Ok _ => LogSecretSet
                | Throw e => LogSecretError (message e)
                end)]).
Proof.
  cbn zeta. unfold secretRepository.
  fold (repoOwner repoConfig) (repoName repoConfig).
  unfold bind at 1. unfold console at 1. rewrite try_catch_report.
  unfold bind, console.
  destruct (setSecret _ _ "GEMINI_API_KEY" GEMINI_API_KEY w) as [[[[]|e] w1] t1];
    reflexivity.
Qed.

Lemma secretRepository_total GEMINI_API_KEY repoConfig (w : World P) :
  result_of (secretRepository GEMINI_API_KEY repoConfig w) = Ok tt.
Proof. rewrite secretRepository_steps. reflexivity. Qed.


Lemma secrets_main_steps GEMINI_API_KEY config repos (w : World P) :
  loadConfig = Ok config ->
  repositories config = Some repos ->
  repos <> [] ->
  main GEMINI_API_KEY w
  = (Ok tt, world_of (for_of repos (secretRepository GEMINI_API_KEY) w),
     Print LogBanner :: trace_of (for_of repos (secretRepository GEMINI_API_KEY) w)
     ++ [Print LogDone]).
Proof.
  intros Hload Hrepos Hne.
  unfold main. unfold bind at 1. unfold console at 1.
  unfold bind at 1. unfold lift at 1. rewrite Hload, Hrepos.
  destruct repos as [|rc repos]; [congruence|].
  unfold bind at 1.
  pose proof (proj1 (for_of_visits (secretRepository GEMINI_API_KEY) (rc :: repos) w
                       (secretRepository_total GEMINI_API_KEY))) as Hr.
  destruct (for_of (rc :: repos) _ w) as [[[[]|e] w1] t1]; [|discriminate].
  reflexivity.
Qed.

Lemma secrets_main_empty GEMINI_API_KEY config (w : World P) :
  loadConfig = Ok config ->
  repositories config = None \/ repositories config = Some [] ->
  main GEMINI_API_KEY w = (Ok tt, w, [Print LogBanner; Print LogNoRepositories]).
Proof.
  intros Hload Hrepos.
  unfold main. unfold bind at 1. unfold console at 1.
  unfold bind at 1. unfold lift at 1. rewrite Hload.
  destruct Hrepos as [-> | ->]; reflexivity.
Qed.

(** X19. Every request of a run of [main] is, for a repository declared in
    the configuration, either the fetch of its public key or the write of its
    secret named [GEMINI_API_KEY]: no other repository and no other secret is
    touched, and no secret is read or deleted. *)
Theorem only_the_declared_secret_is_written GEMINI_API_KEY config (w : World P) r :
  loadConfig = Ok config ->
  Call r ∈ trace_of (main GEMINI_API_KEY w) ->
  exists repoConfig,
    repoConfig ∈ declaredRepositories config
    /\ (r = publicKeyRequest (repoOwner repoConfig) (repoName repoConfig)
        \/ exists encryptedValue key_id,
             r = secretWrite (repoOwner repoConfig) (repoName repoConfig)
                   "GEMINI_API_KEY" encryptedValue key_id).
Proof.
  intros Hload Hin. unfold declaredRepositories.
  destruct (repositories config) as [[|rc repos]|] eqn:Hrepos.
  - rewrite (secrets_main_empty _ config w Hload (or_intror Hrepos)) in Hin.
    cbn in Hin. repeat (apply elem_of_cons in Hin as [Hin|Hin]; [discriminate|]).
    inversion Hin.
  - rewrite (secrets_main_steps _ config (rc :: repos) w Hload Hrepos ltac:(discriminate))
      in Hin.
    cbn [trace_of snd default from_option id] in *.
    apply elem_of_cons in Hin as [Hin|Hin]; [discriminate|].
    apply elem_of_app in Hin as [Hin|Hin].
    2:{ apply list_elem_of_singleton in Hin. discriminate. }
    pose proof (for_of_Forall_in
      (fun ev => match ev with
                 | Call r' => exists repoConfig,
                     repoConfig ∈ rc :: repos
                     /\ (r' = publicKeyRequest (repoOwner repoConfig) (repoName repoConfig)
                         \/ exists encryptedValue key_id,
                              r' = secretWrite (repoOwner repoConfig) (repoName repoConfig)
                                     "GEMINI_API_KEY" encryptedValue key_id)
                 | Print _ => True
                 end) (secretRepository GEMINI_API_KEY) (rc :: repos) w) as Hall.
    rewrite Forall_forall in Hall. apply Hall in Hin; [exact Hin|].
    intros x w' Hx. rewrite secretRepository_steps. cbn [trace_of snd].
    constructor; [exact I|]. apply Forall_app. split; [|repeat constructor].
    destruct (setSecret_shapes (repoOwner x) (repoName x) "GEMINI_API_KEY"
                GEMINI_API_KEY w') as [->|(ev & kid & ->)].
    + repeat constructor. exists x. split; [exact Hx|]. left. reflexivity.
    + repeat constructor.
      * exists x. split; [exact Hx|]. left. reflexivity.
      * exists x. split; [exact Hx|]. right. exists ev, kid. reflexivity.
  - rewrite (secrets_main_empty _ config w Hload (or_introl Hrepos)) in Hin.
    cbn in Hin. repeat (apply elem_of_cons in Hin as [Hin|Hin]; [discriminate|]).
    inversion Hin.
Qed.



End SecretFacts.

(** * Both scripts on a configuration without repositories *)

Section NoRepositories.
Context {P : Platform}.


End NoRepositories.

(** * The two copies of [githubRequest] *)

Section TwoRequests.
Context {P : Platform}.

End TwoRequests.

(** * The scenarios of the specification, run *)

Section Runs.
Import Scenario SyncWorkflows.

Lemma syncFile_update_carries_observed_token_witness :
  let req := updateRequest (P:=acme) "acme" "widgets" ci "A" (Some "v2") "main" in
  req ∈ writes (trace_of (syncFile (P:=acme) "acme" "widgets" ci "A" "main" differs))
  /\ exists existing w1 rest,
       readFileState (P:=acme) "acme" "widgets" ci "main" differs
       = (Ok existing, w1, [Call (readRequest "acme" "widgets" ci "main")])
       /\ prop existing "sha" = Some "v2"
       /\ req = updateRequest (P:=acme) "acme" "widgets" ci "A" (Some "v2") "main"
       /\ trace_of (syncFile (P:=acme) "acme" "widgets" ci "A" "main" differs)
          = Call (readRequest "acme" "widgets" ci "main") :: Call req :: rest.
Proof.
  intros req.
  assert (Hin : req ∈ writes (trace_of (syncFile (P:=acme) "acme" "widgets" ci "A"
                                          "main" differs)))
    by (vm_compute; apply list_elem_of_here).
  split; [exact Hin|].
  exact (proj1 (syncFile_update_carries_observed_token (P:=acme)
                  "acme" "widgets" ci "A" "main" differs req Hin) "v2" eq_refl).
Defined.

(** The remote file reads [B], the desired content is [A], and the service
    answers the update write with a conflict: the read returned and the
    contents differ, and the outcome is failed, not updated. *)
Lemma syncFile_conflict_is_not_updated :
  let x := syncFile (P:=acme) "acme" "widgets" ci "A" "main" conflict in
  (exists existing w1 t1,
     readFileState (P:=acme) "acme" "widgets" ci "main" conflict = (Ok existing, w1, t1)
     /\ decodeContent (P:=acme) (prop existing "content") = Ok "B")
  /\ "B" <> "A"
  /\ writes (trace_of x) = [updateRequest (P:=acme) "acme" "widgets" ci "A" (Some "v2") "main"]
  /\ outcome x <> Some updated.
Proof.
  cbn zeta. split; [|split; [|split]].
  - eexists _, _, _. split; vm_compute; reflexivity.
  - discriminate.
  - vm_compute. reflexivity.
  - vm_compute. discriminate.
Qed.

Lemma syncFile_byte_equality_gate_witness :
  let x := syncFile (P:=acme) "acme" "widgets" ci "A" "main" differs in
  let update := updateRequest (P:=acme) "acme" "widgets" ci "A" (Some "v2") "main" in
  updates (trace_of x) = [update]
  /\ outcome x = Some updated
  /\ writes (trace_of x) = [update].
Proof.
  intros x update.
  assert (Hread : readFileState (P:=acme) "acme" "widgets" ci "main" differs
                  = (Ok [("content", "Qg=="); ("sha", "v2")], differs,
                     [Call (readRequest "acme" "widgets" ci "main")]))
    by (vm_compute; reflexivity).
  destruct (syncFile_byte_equality_gate (P:=acme) "acme" "widgets" ci "A" "main"
              differs differs _ _ "Qg==" "v2" Hread eq_refl eq_refl)
    as [_ Hdiff].
  destruct (Hdiff ltac:(vm_compute; discriminate)) as (Hu & _ & _ & Hdone).
  split; [exact Hu|].
  eapply Hdone. vm_compute. reflexivity.
Defined.

Lemma syncFile_not_found_creates_witness :
  let x := syncFile (P:=acme) "acme" "widgets" ci "A" "main" absent in
  let create := createRequest (P:=acme) "acme" "widgets" ci "A" "main" in
  writes (trace_of x) = [create]
  /\ prop (default [] (body create)) "content" = Some "QQ=="
  /\ outcome x = Some created.
Proof.
  intros x create.
  assert (Hfetch : fetch acme (readRequest "acme" "widgets" ci "main") absent
                   = (Ok (Remote.failure 404 "Not Found"), absent))
    by (vm_compute; reflexivity).
  destruct (syncFile_not_found_creates (P:=acme) "acme" "widgets" ci "A" "main"
              absent absent _ Hfetch eq_refl)
    as (Hw & _ & _ & _ & _ & Hcontent & Hdone).
  split; [exact Hw|]. split; [exact Hcontent|].
  eapply Hdone. vm_compute. reflexivity.
Defined.



Lemma second_run_changes_nothing_witness :
  let x := main (P:=acme) converged in
  result_of x = Ok tt
  /\ writes (trace_of x) = []
  /\ file_lines (trace_of x) = [LogUpToDate ci; LogUpToDate review; LogUpToDate labels].
Proof.
  intros x.
  assert (Hload : loadConfig (P:=acme) = Ok (mkConfig (Some [widgets])))
    by reflexivity.
  assert (Hcommands : desiredCommands (P:=acme) = Some [(review, "R"); (labels, "L")])
    by (vm_compute; reflexivity).
  apply (second_run_changes_nothing (P:=acme) (fun st => st = converged)
           (mkConfig (Some [widgets])) [(review, "R"); (labels, "L")] converged
           Hload Hcommands).
  - intros rc wn Hrc Hwn. apply list_elem_of_singleton in Hrc. subst rc.
    apply list_elem_of_singleton in Hwn. subst wn. exists "A". reflexivity.
  - intros rc a Hrc Ha. apply list_elem_of_singleton in Hrc. subst rc.
    intros st Hst. subst st.
    change (a ∈ [(ci, "A"); (review, "R"); (labels, "L")]) in Ha.
    apply elem_of_cons in Ha as [->|Ha]; [|apply elem_of_cons in Ha as [->|Ha]];
      [| |apply list_elem_of_singleton in Ha as ->].
    all: eexists _, converged, _; split; [vm_compute; reflexivity|];
      split; [vm_compute; reflexivity|reflexivity].
  - intros rc value st Hrc Hvalue. apply list_elem_of_singleton in Hrc. subst rc.
    discriminate.
  - reflexivity.
Defined.


(** The variable exists when it is read and is answered with status 404 when
    it is updated: the read returned, and one update call and one create call
    are issued. *)
Lemma setVariable_update_then_create :
  let x := setVariable (P:=acme) "acme" "widgets" "RUNS_ON" "self-hosted"
             variableVanishes in
  (exists j w1 t1,
     readVariable (P:=acme) "acme" "widgets" "RUNS_ON" variableVanishes = (Ok j, w1, t1))
  /\ variable_updates (trace_of x)
     = [variableUpdate "acme" "widgets" "RUNS_ON" "self-hosted"]
  /\ variable_creates (trace_of x)
     = [variableCreate "acme" "widgets" "RUNS_ON" "self-hosted"]
  /\ variable_creates (trace_of x) <> [].
Proof.
  cbn zeta. split; [|split; [|split]].
  - eexists _, _, _. vm_compute. reflexivity.
  - vm_compute. reflexivity.
  - vm_compute. reflexivity.
  - vm_compute. discriminate.
Qed.

Lemma setVariable_create_vs_update_witness :
  (let x := setVariable (P:=acme) "acme" "widgets" "RUNS_ON" "self-hosted"
              variablePresent in
   variable_updates (trace_of x) = [variableUpdate "acme" "widgets" "RUNS_ON" "self-hosted"]
   /\ variable_creates (trace_of x) = [])
  /\ (let x := setVariable (P:=acme) "acme" "widgets" "RUNS_ON" "self-hosted" absent in
      variable_creates (trace_of x)
      = [variableCreate "acme" "widgets" "RUNS_ON" "self-hosted"]
      /\ variable_updates (trace_of x) = []).
Proof.
  split.
  - destruct (setVariable_create_vs_update (P:=acme) "acme" "widgets" "RUNS_ON"
                "self-hosted" variablePresent) as (_ & Hpresent & _).
    destruct (Hpresent [("name", "RUNS_ON"); ("value", "ubuntu-latest")] variablePresent
                [Call (variableRead "acme" "widgets" "RUNS_ON")]
                ltac:(vm_compute; reflexivity)) as (Hu & _ & Hc).
    split; [exact Hu|]. apply Hc.
    intros e w2 t2 Hpatch. vm_compute in Hpatch. discriminate.
  - destruct (setVariable_create_vs_update (P:=acme) "acme" "widgets" "RUNS_ON"
                "self-hosted" absent) as (_ & _ & Habsent).
    apply (Habsent (Remote.failure 404 "Not Found") absent).
    + vm_compute. reflexivity.
    + reflexivity.
Defined.

Lemma variable_before_files_witness :
  let xv := setVariable (P:=acme) "acme" "widgets" "RUNS_ON" "self-hosted"
              variableReadFails in
  let xf := for_of ["ci"] (syncWorkflow (P:=acme) "acme" "widgets" "main") (world_of xv) in
  (exists e, result_of xv = Throw e)
  /\ trace_of (syncRepository (P:=acme) widgetsOnRunner variableReadFails)
     = Print (LogRepository "acme/widgets") :: trace_of xv
       ++ [Print (match result_of xv with
                  | Ok _ => LogVariableSet "self-hosted"
                  | Throw e => LogVariableError (message e)
                  end)]
       ++ trace_of xf
  /\ Call (readRequest "acme" "widgets" ci "main") ∈ trace_of xf.
Proof.
  intros xv xf.
  destruct (variable_before_files (P:=acme) widgetsOnRunner "self-hosted"
              variableReadFails eq_refl) as (Htrace & _ & _ & _ & _ & Hfiles).
  split; [eexists; vm_compute; reflexivity|].
  split; [exact Htrace|].
  exact (Hfiles "ci" "A" (list_elem_of_here _ _) eq_refl).
Defined.

Lemma not_found_is_a_substring_test_witness :
  status badGateway = 502%N
  /\ calls (trace_of (syncFile (P:=acme) "acme" "widgets" ci "A" "main"
                        (gatewayOn GET (contentsUrl ci +:+ "?ref=main") same)))
     = [readRequest "acme" "widgets" ci "main";
        createRequest (P:=acme) "acme" "widgets" ci "A" "main"]
  /\ calls (trace_of (syncFile (P:=acme) "acme" "widgets" ci "A" "main"
                        (gatewayOn PUT (contentsUrl ci) differs)))
     = [readRequest "acme" "widgets" ci "main";
        updateRequest (P:=acme) "acme" "widgets" ci "A" (Some "v2") "main";
        createRequest (P:=acme) "acme" "widgets" ci "A" "main"]
  /\ calls (trace_of (setVariable (P:=acme) "acme" "widgets" "RUNS_ON" "self-hosted"
                        (gatewayOn GET runsOnUrl variablePresent)))
     = [variableRead "acme" "widgets" "RUNS_ON";
        variableCreate "acme" "widgets" "RUNS_ON" "self-hosted"]
  /\ calls (trace_of (setVariable (P:=acme) "acme" "widgets" "RUNS_ON" "self-hosted"
                        (gatewayOn PATCH runsOnUrl variablePresent)))
     = [variableRead "acme" "widgets" "RUNS_ON";
        variableUpdate "acme" "widgets" "RUNS_ON" "self-hosted";
        variableCreate "acme" "widgets" "RUNS_ON" "self-hosted"].
Proof.
  destruct (not_found_is_a_substring_test (P:=acme) badGateway eq_refl
              ltac:(vm_compute; discriminate) ltac:(vm_compute; reflexivity))
    as (Hread & Hupdate & Hvread & Hvupdate & _ & _).
  split; [reflexivity|]. split; [|split; [|split]].
  - refine (proj1 (Hread "acme" "widgets" ci "A" "main" _ _ _)).
    vm_compute. reflexivity.
  - refine (Hupdate "acme" "widgets" ci "A" "main" _ _ _
              [("content", "Qg=="); ("sha", "v2")] _ "B" _ _ _ _).
    + vm_compute. reflexivity.
    + vm_compute. reflexivity.
    + discriminate.
    + vm_compute. reflexivity.
  - refine (Hvread "acme" "widgets" "RUNS_ON" "self-hosted" _ _ _).
    vm_compute. reflexivity.
  - refine (Hvupdate "acme" "widgets" "RUNS_ON" "self-hosted" _ _ _ _ _ _ _).
    + vm_compute. reflexivity.
    + vm_compute. reflexivity.
Defined.


(** The three scenarios of the specification for [ci.yml] with desired
    content [A]: absent remotely, present with [A], present with [B]. *)
Lemma specification_scenarios :
  syncFile (P:=acme) "acme" "widgets" ci "A" "main" absent
  = (Ok tt, Remote.store (contentsUrl ci +:+ "?ref=main")
              [("content", "QQ=="); ("sha", "v1")] absent,
     [Call (readRequest "acme" "widgets" ci "main");
      Call (createRequest (P:=acme) "acme" "widgets" ci "A" "main");
      Print (LogCreated ci)])
  /\ syncFile (P:=acme) "acme" "widgets" ci "A" "main" same
     = (Ok tt, same,
        [Call (readRequest "acme" "widgets" ci "main"); Print (LogUpToDate ci)])
  /\ syncFile (P:=acme) "acme" "widgets" ci "A" "main" differs
     = (Ok tt, Remote.store (contentsUrl ci +:+ "?ref=main")
                 [("content", "QQ=="); ("sha", "v3")] differs,
        [Call (readRequest "acme" "widgets" ci "main");
         Call (updateRequest (P:=acme) "acme" "widgets" ci "A" (Some "v2") "main");
         Print (LogUpdated ci)]).
Proof. repeat split; vm_compute; reflexivity. Qed.

(** Two runs in a row, starting from a repository without any of the files:
    the first creates the three artifacts, the second finds them up to date
    and writes nothing. *)
Lemma two_runs_from_scratch :
  let first := main (P:=acme) absent in
  let second := main (P:=acme) (world_of first) in
  file_lines (trace_of first) = [LogCreated ci; LogCreated review; LogCreated labels]
  /\ length (writes (trace_of first)) = 3%nat
  /\ file_lines (trace_of second)
     = [LogUpToDate ci; LogUpToDate review; LogUpToDate labels]
  /\ writes (trace_of second) = []
  /\ world_of second = world_of first.
Proof. cbn zeta. repeat split; vm_compute; reflexivity. Qed.
Lemma getFilesRecursively_lists_every_file_witness :
  getFilesRecursively "/app/templates/.github/commands"
    (Ok [EFile "review.toml"; EDir "triage" (Ok [EFile "labels.toml"])]) ["kept"]
  = Ok ["kept"; "/app/templates/.github/commands/review.toml";
        "/app/templates/.github/commands/triage/labels.toml"].
Proof.
  exact (getFilesRecursively_lists_every_file "/app/templates/.github/commands"
           [EFile "review.toml"; EDir "triage" (Ok [EFile "labels.toml"])] ["kept"]
           eq_refl).
Defined.

Lemma missing_commands_directory_is_ignored_witness :
  syncCommands (P:=plain) "acme" "widgets" "main" absent = (Ok tt, absent, [])
  /\ calls (trace_of (syncWorkflow (P:=plain) "acme" "widgets" "main" "ci" absent))
     = calls (trace_of (syncFile (P:=plain) "acme" "widgets" (targetPath "ci") "A"
                          "main" absent)).
Proof.
  exact (missing_commands_directory_is_ignored (P:=plain) "acme" "widgets" "main" "ci" "A"
           _ absent eq_refl eq_refl eq_refl).
Defined.

Lemma error_showing_ENOENT_is_dropped_witness :
  syncWorkflow (P:=acme) "acme" "widgets" "main" "ci" secondReadShowsENOENT
  = (Ok tt, secondReadShowsENOENT,
     [Call (readRequest "acme" "widgets" ci "main"); Print (LogUpToDate ci)]
     ++ [] ++ [Call (readRequest "acme" "widgets" review "main")]).
Proof.
  refine (proj2 (error_showing_ENOENT_is_dropped (P:=acme) "acme" "widgets" "main" "ci" "A"
           [] "/app/templates/.github/commands/review.toml"
           ["/app/templates/.github/commands/triage/labels.toml"]
           secondReadShowsENOENT secondReadShowsENOENT secondReadShowsENOENT
           secondReadShowsENOENT
           [Call (readRequest "acme" "widgets" ci "main"); Print (LogUpToDate ci)] []
           (mkError ("GitHub API error: 500 "
                     +:+ FlatJson.stringify [("message", "ENOENT: cache entry missing");
                                             ("status", "500")]))
           [Call (readRequest "acme" "widgets" review "main")] _ _ _ _ _ _)).
  - reflexivity.
  - vm_compute. reflexivity.
  - vm_compute. reflexivity.
  - reflexivity.
  - vm_compute. reflexivity.
  - vm_compute. reflexivity.
Defined.


Lemma only_declared_repositories_are_contacted_witness :
  Call (readRequest "acme" "widgets" ci "main") ∈ trace_of (main (P:=both) converged)
  /\ exists repoConfig,
       repoConfig ∈ [widgets; gadgets]
       /\ repository_event repoConfig (Call (readRequest "acme" "widgets" ci "main")).
Proof.
  assert (Hin : Call (readRequest "acme" "widgets" ci "main")
                ∈ trace_of (main (P:=both) converged))
    by (refine (bool_decide_unpack _ _); vm_compute; exact I).
  split; [exact Hin|].
  exact (only_declared_repositories_are_contacted (P:=both)
           (mkConfig (Some [widgets; gadgets])) converged _ eq_refl Hin).
Defined.

Lemma syncFile_read_without_body_fails_witness :
  syncFile (P:=acme) "acme" "widgets" ci "A" "main" readWithoutBody
  = (Throw Buffer_from_TypeError, readWithoutBody,
     [Call (readRequest "acme" "widgets" ci "main")]).
Proof.
  apply (syncFile_read_without_body_fails (P:=acme) "acme" "widgets" ci "A" "main"
           readWithoutBody readWithoutBody Remote.no_content).
  - vm_compute. reflexivity.
  - reflexivity.
  - left. reflexivity.
Defined.

Lemma syncFile_recognises_its_own_write_witness :
  syncFile (P:=acme) "acme" "widgets" ci "A" "main" same
  = (Ok tt, same, [Call (readRequest "acme" "widgets" ci "main"); Print (LogUpToDate ci)]).
Proof.
  refine (proj2 (syncFile_recognises_its_own_write (P:=acme) "acme" "widgets" ci "A" "main"
                   same same [("content", "QQ=="); ("sha", "v1")]
                   [Call (readRequest "acme" "widgets" ci "main")] _ _ _)).
  - vm_compute. reflexivity.
  - vm_compute. reflexivity.
  - vm_compute. reflexivity.
Defined.

Lemma owner_and_repository_of_a_name_witness :
  (repoOwner (mkRepositoryConfig "acme" None None None) = "acme"
   /\ repoName (mkRepositoryConfig "acme" None None None) = "undefined")
  /\ (repoOwner (mkRepositoryConfig "acme/widgets/tree/main" None None None) = "acme"
      /\ repoName (mkRepositoryConfig "acme/widgets/tree/main" None None None) = "widgets").
Proof.
  split.
  - exact (proj1 (owner_and_repository_of_a_name
                    (mkRepositoryConfig "acme" None None None) "acme" eq_refl) eq_refl).
  - exact (proj2 (owner_and_repository_of_a_name
                    (mkRepositoryConfig "acme/widgets/tree/main" None None None) "acme"
                    eq_refl) "widgets" "tree/main" eq_refl (or_intror eq_refl)).
Defined.


Lemma setSecret_without_public_key_fails_witness :
  SetSecrets.setSecret (P:=acme) "acme" "widgets" "GEMINI_API_KEY" "s3cret" keyAsHtml
  = (Throw (SetSecrets.null_TypeError "key"), keyAsHtml,
     [Call (publicKeyRequest "acme" "widgets")]).
Proof.
  apply (setSecret_without_public_key_fails (P:=acme) "acme" "widgets" "GEMINI_API_KEY"
           "s3cret" keyAsHtml keyAsHtml
           (mkResponse 200 (Some "13") (Some "text/html") "<html></html>")).
  - vm_compute. reflexivity.
  - reflexivity.
  - right. right. left. exists "text/html". split; reflexivity.
Defined.


Lemma only_the_declared_secret_is_written_witness :
  Call (publicKeyRequest "acme" "gadgets")
  ∈ trace_of (SetSecrets.main (P:=both) "s3cret" keyAsHtml)
  /\ exists repoConfig,
       repoConfig ∈ [widgets; gadgets]
       /\ (publicKeyRequest "acme" "gadgets"
           = publicKeyRequest (repoOwner repoConfig) (repoName repoConfig)
           \/ exists encryptedValue key_id,
                publicKeyRequest "acme" "gadgets"
                = secretWrite (repoOwner repoConfig) (repoName repoConfig)
                    "GEMINI_API_KEY" encryptedValue key_id).
Proof.
  assert (Hin : Call (publicKeyRequest "acme" "gadgets")
                ∈ trace_of (SetSecrets.main (P:=both) "s3cret" keyAsHtml))
    by (refine (bool_decide_unpack _ _); vm_compute; exact I).
  split; [exact Hin|].
  exact (only_the_declared_secret_is_written (P:=both) "s3cret"
           (mkConfig (Some [widgets; gadgets])) keyAsHtml _ eq_refl Hin).
Defined.
End Runs.
